(** * Customer-support analytics dashboard (Visualization/app1.py)

    A shallow embedding of the data pipeline of the dashboard script:
    the CSV loader, the sidebar filter, the four KPI aggregations, the
    Chatbot / Live Agent comparison and the resolution-time scan.

    A pandas DataFrame is a list of row records in index order; a Series
    is the list of one field.  Numeric cells are IEEE binary64 values
    (Rocq's primitive floats), so a missing number is NaN, as in pandas.
    A missing timestamp (NaT) and a missing category are [None].
    Widgets, layout and plotting are left out. *)

From Stdlib Require Import ZArith List String Bool Floats Lia.
From Stdlib Require Import Sorted.
From Stdlib Require Uint63.
Import ListNotations.

Local Open Scope string_scope.
Local Open Scope float_scope.

(** ** Numbers *)

(** [float(n)] for a row count. *)
Definition float_of_nat (n : nat) : float :=
  of_uint63 (Uint63.of_Z (Z.of_nat n)).

(** Left-to-right floating-point sum. *)
Definition fsum (xs : list float) : float :=
  fold_left PrimFloat.add xs 0.

(** Two floats denote the same value: IEEE equality (so [0 = -0]),
    with NaN matching NaN. *)
Definition same_value (x y : float) : bool :=
  (x =? y) || (is_nan x && is_nan y).

(** ** Errors *)

Inductive exn : Set :=
| FileNotFoundError
| ParserError
| KeyError
| ValueError.

Inductive result (A : Type) : Type :=
| Ok (a : A)
| Raised (e : exn).
Arguments Ok {A} a.
Arguments Raised {A} e.

Definition bind {A B : Type} (r : result A) (k : A -> result B) : result B :=
  match r with
  | Ok a => k a
  | Raised e => Raised e
  end.

Notation "x <- r ;; k" := (bind r (fun x => k))
  (at level 61, r at next level, right associativity).

Fixpoint mapM {A B : Type} (f : A -> result B) (l : list A) : result (list B) :=
  match l with
  | [] => Ok []
  | a :: l' => b <- f a ;; bs <- mapM f l' ;; Ok (b :: bs)
  end.

(** ** Timestamps and dates *)

(** A [datetime64[ns]] value: nanoseconds since the epoch. *)
Definition timestamp : Set := Z.

(** A [datetime.date]: days since the epoch. *)
Definition date : Set := Z.

Definition ns_per_day : Z := 86400000000000.

(** The date component of a timestamp; the time of day is dropped. *)
Definition date_of (ts : timestamp) : date := (ts / ns_per_day)%Z.

(** ** The pandas operations the script uses *)

Module Pd.

Inductive errors_mode : Set := errors_raise | errors_coerce.

(** A parsed date-time: the wall-clock time, and the UTC offset in
    seconds when the text carries one. *)
Definition parsed : Set := (timestamp * option Z)%type.

Definition offset_eqb (a b : option Z) : bool :=
  match a, b with
  | Some x, Some y => (x =? y)%Z
  | None, None => true
  | _, _ => false
  end.

(** The UTC offsets of the cells that parsed. *)
Fixpoint offsets (cells : list (option parsed)) : list (option Z) :=
  match cells with
  | [] => []
  | Some p :: cells' => snd p :: offsets cells'
  | None :: cells' => offsets cells'
  end.

(** The offsets are not all the same. *)
Definition mixed_offsets (offs : list (option Z)) : bool :=
  match offs with
  | [] => false
  | o :: rest => negb (forallb (offset_eqb o) rest)
  end.

Section ToDatetime.
(** The library's parser of one date-time string of a column; the
    format it follows is inferred from the column. *)
Variable parse_datetime : list (option string) -> string -> option parsed.

(** One cell of [pd.to_datetime]: an empty cell is NaT; a string
    that does not parse raises under [errors="raise"] and is NaT
    under [errors="coerce"]. *)
Definition to_datetime_cell (errors : errors_mode) (col : list (option string))
  (c : option string) : result (option parsed) :=
  match c with
  | None => Ok None
  | Some s =>
      match parse_datetime col s with
      | Some p => Ok (Some p)
      | None =>
          match errors with
          | errors_coerce => Ok None
          | errors_raise => Raised ValueError
          end
      end
  end.

(** [pd.to_datetime(col, errors=...)]: the cells one by one, then the
    column as a whole, which raises under either mode when the values
    that parsed do not share one UTC offset. *)
Definition to_datetime (errors : errors_mode) (col : list (option string))
  : result (list (option timestamp)) :=
  cells <- mapM (to_datetime_cell errors col) col ;;
  if mixed_offsets (offsets cells) then Raised ValueError
  else Ok (map (option_map fst) cells).
End ToDatetime.

(** [series.isin(values)]: a missing cell is in no list of labels. *)
Definition isin_cell (values : list string) (c : option string) : bool :=
  match c with
  | Some s => existsb (String.eqb s) values
  | None => false
  end.

Definition isin (col : list (option string)) (values : list string) : list bool :=
  map (isin_cell values) col.

(** [series == label]. *)
Definition eq_cell (label : string) (c : option string) : bool :=
  match c with
  | Some s => String.eqb s label
  | None => false
  end.

Definition eq_scalar (col : list (option string)) (label : string) : list bool :=
  map (eq_cell label) col.

(** [series.dt.date]. *)
Definition dt_date (col : list (option timestamp)) : list (option date) :=
  map (option_map date_of) col.

(** [dates >= d] and [dates <= d]: NaT compares false. *)
Definition ge_cell (d : date) (c : option date) : bool :=
  match c with
  | Some x => (d <=? x)%Z
  | None => false
  end.

Definition le_cell (d : date) (c : option date) : bool :=
  match c with
  | Some x => (x <=? d)%Z
  | None => false
  end.

Definition ge_date (col : list (option date)) (d : date) : list bool :=
  map (ge_cell d) col.

Definition le_date (col : list (option date)) (d : date) : list bool :=
  map (le_cell d) col.

(** [series > x] on a numeric column. *)
Definition gt_scalar (col : list float) (x : float) : list bool :=
  map (fun v => x <? v) col.

(** [m1 & m2]. *)
Fixpoint band (m1 m2 : list bool) : list bool :=
  match m1, m2 with
  | b1 :: m1', b2 :: m2' => (b1 && b2) :: band m1' m2'
  | _, _ => []
  end.

(** [df[mask]]: the rows whose mask entry is true, in order. *)
Fixpoint loc {A : Type} (df : list A) (mask : list bool) : list A :=
  match df, mask with
  | r :: df', b :: mask' => if b then r :: loc df' mask' else loc df' mask'
  | _, _ => []
  end.

(** [df.head(n)]. *)
Definition head {A : Type} (n : nat) (df : list A) : list A := firstn n df.

(** [series.dropna()]. *)
Definition dropna (col : list float) : list float :=
  List.filter (fun v => negb (is_nan v)) col.

(** [series.mean()]: missing values are skipped; no value left gives
    [0 / 0], which is NaN. *)
Definition mean (col : list float) : float :=
  let xs := dropna col in
  fsum xs / float_of_nat (List.length xs).

(** One more row for key [k] in a table of counts sorted by key. *)
Fixpoint bump (k : date) (acc : list (date * nat)) : list (date * nat) :=
  match acc with
  | [] => [(k, 1%nat)]
  | (k', n) :: rest =>
      if (k <? k')%Z then (k, 1%nat) :: acc
      else if (k =? k')%Z then (k', S n) :: rest
      else (k', n) :: bump k rest
  end.

(** [df.groupby(keys).size()]: rows per key, keys sorted, rows with a
    missing key dropped. *)
Definition groupby_size (keys : list (option date)) : list (date * nat) :=
  fold_left (fun acc k => match k with
                          | Some d => bump d acc
                          | None => acc
                          end) keys [].

(** [series.dropna()] on a column of labels. *)
Fixpoint dropna_labels (col : list (option string)) : list string :=
  match col with
  | [] => []
  | Some s :: col' => s :: dropna_labels col'
  | None :: col' => dropna_labels col'
  end.

(** [series.unique()]: each value once, in order of first appearance. *)
Fixpoint unique (col : list string) : list string :=
  match col with
  | [] => []
  | s :: col' => s :: List.filter (fun x => negb (String.eqb s x)) (unique col')
  end.

(** [series.min()] and [series.max()] on timestamps: NaT is skipped; a
    column without any timestamp gives NaT. *)
Definition min_cell (acc c : option timestamp) : option timestamp :=
  match c, acc with
  | Some x, Some m => Some (Z.min m x)
  | Some x, None => Some x
  | None, _ => acc
  end.

Definition max_cell (acc c : option timestamp) : option timestamp :=
  match c, acc with
  | Some x, Some m => Some (Z.max m x)
  | Some x, None => Some x
  | None, _ => acc
  end.

Definition series_min (col : list (option timestamp)) : option timestamp :=
  fold_left min_cell col None.

Definition series_max (col : list (option timestamp)) : option timestamp :=
  fold_left max_cell col None.

End Pd.

(** ** Python's [sorted] on strings *)

Fixpoint insert_sorted (s : string) (l : list string) : list string :=
  match l with
  | [] => [s]
  | x :: l' => if String.leb s x then s :: l else x :: insert_sorted s l'
  end.

(** [sorted(values)]: ascending in the order of strings. *)
Definition sorted (l : list string) : list string :=
  fold_right insert_sorted [] l.

(** ** The Welch test of scipy.stats *)

Module Sp.

(** Modelled from the spec: the sample mean used by the test
    ([np.mean] of the library); NaN is not skipped here. *)
Definition np_mean (a : list float) : float :=
  fsum a / float_of_nat (List.length a).

(** Modelled from the spec: the sample variance of a group, with
    [ddof] delta degrees of freedom. *)
Definition np_var (a : list float) (ddof : nat) : float :=
  let m := np_mean a in
  fsum (map (fun x => (x - m) * (x - m)) a)
  / float_of_nat (List.length a - ddof).

(** Modelled from the spec: the Welch-Satterthwaite degrees of freedom
    and the standard error of the difference of the means, from each
    group's variance and size. *)
Definition unequal_var_ttest_denom (v1 n1 v2 n2 : float) : float * float :=
  let vn1 := v1 / n1 in
  let vn2 := v2 / n2 in
  let df := ((vn1 + vn2) * (vn1 + vn2))
            / (vn1 * vn1 / (n1 - 1) + vn2 * vn2 / (n2 - 1)) in
  let df := if is_nan df then 1 else df in
  let denom := sqrt (vn1 + vn2) in
  (df, denom).

(** Modelled from the spec: [stats.ttest_ind(a, b, equal_var=False)]
    is a library call whose code is not part of the script.  The
    statistic is the difference of the sample means over the standard
    error built from each group's variance and size, the degrees of
    freedom are the Welch-Satterthwaite approximation, and the p-value
    is two-sided.  A sample of size zero gives NaN for both results.
    [t_sf df x] stands for the survival function of Student's t
    distribution with [df] degrees of freedom, a special function of
    the library that is left abstract. *)
Definition ttest_ind (t_sf : float -> float -> float) (a b : list float)
  : float * float :=
  match a, b with
  | [], _ | _, [] => (nan, nan)
  | _, _ =>
      let v1 := np_var a 1 in
      let v2 := np_var b 1 in
      let n1 := float_of_nat (List.length a) in
      let n2 := float_of_nat (List.length b) in
      let '(df, denom) := unequal_var_ttest_denom v1 n1 v2 n2 in
      let d := np_mean a - np_mean b in
      let t := d / denom in
      (t, 2 * t_sf df (abs t))
  end.

End Sp.

(** ** The ticket table *)

(** One row of the CSV; [T] is the type of the [Created_At] cell: text
    as read from the file, a timestamp once parsed. *)
Record Row (T : Type) : Type := mkRow {
  Ticket_ID : string;
  Created_At : T;
  Channel : option string;
  Issue_Type : option string;
  Response_Time_Minutes : float;
  Resolution_Time_Minutes : float;
  CSAT_Score : float;
  CSAT_Binary : float
}.
Arguments mkRow {T}.
Arguments Ticket_ID {T}.
Arguments Created_At {T}.
Arguments Channel {T}.
Arguments Issue_Type {T}.
Arguments Response_Time_Minutes {T}.
Arguments Resolution_Time_Minutes {T}.
Arguments CSAT_Score {T}.
Arguments CSAT_Binary {T}.

Definition RawRow : Type := Row (option string).

(** The table [pd.read_csv] returns: the names of the columns of the
    file and its rows.  A row has a cell for each column the script
    reads; the cells of a column the file does not have are not used. *)
Record CsvTable : Type := mkCsvTable {
  csv_columns : list string;
  csv_rows : list RawRow
}.

(** [df["Created_At"]] on the table read: KeyError without the column. *)
Definition getitem_Created_At (tbl : CsvTable) : result (list (option string)) :=
  if existsb (String.eqb "Created_At") (csv_columns tbl)
  then Ok (map Created_At (csv_rows tbl))
  else Raised KeyError.
Definition Ticket : Type := Row (option timestamp).
Definition DataFrame : Type := list Ticket.

Definition set_Created_At {T U : Type} (r : Row T) (c : U) : Row U :=
  mkRow (Ticket_ID r) c (Channel r) (Issue_Type r)
        (Response_Time_Minutes r) (Resolution_Time_Minutes r)
        (CSAT_Score r) (CSAT_Binary r).

(** [df["Created_At"] = col], for a column as long as the table. *)
Fixpoint assign_Created_At {T U : Type} (df : list (Row T)) (col : list U)
  : list (Row U) :=
  match df, col with
  | r :: df', c :: col' => set_Created_At r c :: assign_Created_At df' col'
  | _, _ => []
  end.

(** The KPI row of the header. *)
Record Metrics : Type := mkMetrics {
  avg_csat : float;
  avg_resolution : float;
  tickets_per_day : float;
  happy_rate : float
}.

(** What the A/B tab shows. *)
Inductive verdict : Set :=
| SignificantDifference
| NoSignificantDifference.

Inductive ab_outcome : Type :=
| NotEnoughData
| Tested (n_a n_b : nat) (mean_a mean_b : float)
         (t_stat p_val : float) (v : verdict).

(** The columns of the anomaly table. *)
Record AnomalyRow : Type := mkAnomalyRow {
  a_Ticket_ID : string;
  a_Created_At : option timestamp;
  a_Channel : option string;
  a_Issue_Type : option string;
  a_Response_Time_Minutes : float;
  a_Resolution_Time_Minutes : float;
  a_CSAT_Score : float
}.

Inductive anomaly_view : Type :=
| Table (rows : list AnomalyRow)
| NoTicketsAbove.

Definition project (r : Ticket) : AnomalyRow :=
  mkAnomalyRow (Ticket_ID r) (Created_At r) (Channel r) (Issue_Type r)
               (Response_Time_Minutes r) (Resolution_Time_Minutes r)
               (CSAT_Score r).

(** The significance level of the A/B tab: the double nearest to 0.05. *)
Definition alpha : float := 0x1.999999999999ap-5.

(** ** The script *)

Section Dashboard.

(** [pd.read_csv]: the table of the file, or the exception it raises. *)
Variable read_csv : string -> result CsvTable.
Variable parse_datetime : list (option string) -> string -> option Pd.parsed.
Variable t_sf : float -> float -> float.

(** Lines 12-16. *)
Definition load_data (filename : string) : result DataFrame :=
  df <- read_csv filename ;;
  raw <- getitem_Created_At df ;;
  col <- Pd.to_datetime parse_datetime Pd.errors_coerce raw ;;
  Ok (assign_Created_At (csv_rows df) col).

(** Lines 46-52: the mask of the sidebar filters and [df_f];
    [date_range] is the pair of dates of the date input. *)
Definition filter_mask (df : DataFrame) (channel_filter issue_filter : list string)
  (date_range : date * date) : list bool :=
  Pd.band
    (Pd.band
       (Pd.band (Pd.isin (map Channel df) channel_filter)
                (Pd.isin (map Issue_Type df) issue_filter))
       (Pd.ge_date (Pd.dt_date (map Created_At df)) (fst date_range)))
    (Pd.le_date (Pd.dt_date (map Created_At df)) (snd date_range)).

Definition apply_filters (df : DataFrame) (channel_filter issue_filter : list string)
  (date_range : date * date) : DataFrame :=
  Pd.loc df (filter_mask df channel_filter issue_filter date_range).

(** Lines 59-72: the four KPIs. *)
Definition compute_metrics (df_f : DataFrame) : Metrics :=
  mkMetrics
    (Pd.mean (map CSAT_Score df_f))
    (Pd.mean (map Resolution_Time_Minutes df_f))
    (Pd.mean (map (fun kn => float_of_nat (snd kn))
                  (Pd.groupby_size (Pd.dt_date (map Created_At df_f)))))
    (Pd.mean (map CSAT_Binary df_f) * 100).

(** Lines 112-132, with the two labels as arguments. *)
Definition compare_groups (df_f : DataFrame) (label_a label_b : string)
  : ab_outcome :=
  let ab_df := Pd.loc df_f (Pd.isin (map Channel df_f) [label_a; label_b]) in
  if (List.length ab_df <? 2)%nat then NotEnoughData
  else
    let chatbot :=
      map CSAT_Score (Pd.loc ab_df (Pd.eq_scalar (map Channel ab_df) label_a)) in
    let agent :=
      map CSAT_Score (Pd.loc ab_df (Pd.eq_scalar (map Channel ab_df) label_b)) in
    let '(t_stat, p_val) := Sp.ttest_ind t_sf chatbot agent in
    Tested (List.length chatbot) (List.length agent)
           (Pd.mean chatbot) (Pd.mean agent) t_stat p_val
           (if p_val <? alpha then SignificantDifference
            else NoSignificantDifference).

Definition ab_test (df_f : DataFrame) : ab_outcome :=
  compare_groups df_f "Chatbot" "Live Agent".

(** Lines 143-154: the rows above the threshold, the count that is
    written and the table that is shown.  The slider gives an integer
    from 60 to 300; it is compared as a double. *)
Definition anomalies (df_f : DataFrame) (threshold : float) : DataFrame :=
  Pd.loc df_f (Pd.gt_scalar (map Resolution_Time_Minutes df_f) threshold).

Definition scan_threshold (df_f : DataFrame) (threshold : float)
  : nat * anomaly_view :=
  let found := anomalies df_f threshold in
  (List.length found,
   match found with
   | [] => NoTicketsAbove
   | _ => Table (Pd.head 20 (map project found))
   end).

End Dashboard.

(** ** The sidebar widgets and the daily trend *)

(** Lines 24-34: the options of the two multiselects, which are also
    their default selections. *)
Definition channel_options (df : DataFrame) : list string :=
  sorted (Pd.unique (Pd.dropna_labels (map Channel df))).

Definition issue_options (df : DataFrame) : list string :=
  sorted (Pd.unique (Pd.dropna_labels (map Issue_Type df))).

(** Lines 36-37: the date of the earliest and of the latest timestamp;
    NaT, here [None], when no row has one. *)
Definition min_date (df : DataFrame) : option date :=
  option_map date_of (Pd.series_min (map Created_At df)).

Definition max_date (df : DataFrame) : option date :=
  option_map date_of (Pd.series_max (map Created_At df)).

(** Lines 38-43: the default value of the date input, for a dataset
    that has a timestamp. *)
Definition default_date_range (df : DataFrame) : option (date * date) :=
  match min_date df, max_date df with
  | Some lo, Some hi => Some (lo, hi)
  | _, _ => None
  end.

(** Lines 68 and 101: tickets per calendar day. *)
Definition daily_counts (df_f : DataFrame) : list (date * nat) :=
  Pd.groupby_size (Pd.dt_date (map Created_At df_f)).

(** ** Row-level reading of the masks *)

(** The three filtered columns of the row are present. *)
Definition complete (r : Ticket) : bool :=
  match Channel r, Issue_Type r, Created_At r with
  | Some _, Some _, Some _ => true
  | _, _, _ => false
  end.

(** The row has a creation timestamp. *)
Definition has_timestamp (r : Ticket) : bool :=
  match Created_At r with
  | Some _ => true
  | None => false
  end.

(** The row was created on day [d]. *)
Definition created_on (d : date) (r : Ticket) : bool :=
  match Created_At r with
  | Some ts => (date_of ts =? d)%Z
  | None => false
  end.

(** The CSAT score of the row is present. *)
Definition has_score (r : Ticket) : bool :=
  negb (is_nan (CSAT_Score r)).

(** The order of strings, as a relation. *)
Definition str_le (a b : string) : Prop := String.leb a b = true.

(** Rows recorded for day [d] in a table of counts. *)
Definition count_at (d : date) (acc : list (date * nat)) : nat :=
  list_sum (map snd (List.filter (fun kn => (fst kn =? d)%Z) acc)).

(** One step of [groupby_size]. *)
Definition count_key (acc : list (date * nat)) (k : option date) : list (date * nat) :=
  match k with
  | Some d => Pd.bump d acc
  | None => acc
  end.

(** A key that orders the floats other than NaN as IEEE comparison
    does: sign class, then exponent, then mantissa. *)
Definition sf_key (f : spec_float) : option (Z * Z * Z) :=
  match f with
  | S754_nan => None
  | S754_infinity s => Some (if s then (-2)%Z else 2%Z, 0%Z, 0%Z)
  | S754_zero _ => Some (0%Z, 0%Z, 0%Z)
  | S754_finite s m e =>
      Some (if s then ((-1)%Z, (- e)%Z, Z.neg m) else (1%Z, e, Z.pos m))
  end.

Definition lex3 (a b : Z * Z * Z) : comparison :=
  match (fst (fst a) ?= fst (fst b))%Z with
  | Eq => match (snd (fst a) ?= snd (fst b))%Z with
          | Eq => (snd a ?= snd b)%Z
          | c => c
          end
  | c => c
  end.

(** The row passes the three sidebar filters. *)
Definition row_passes (channel_filter issue_filter : list string)
  (date_range : date * date) (r : Ticket) : bool :=
  Pd.isin_cell channel_filter (Channel r)
  && Pd.isin_cell issue_filter (Issue_Type r)
  && Pd.ge_cell (fst date_range) (option_map date_of (Created_At r))
  && Pd.le_cell (snd date_range) (option_map date_of (Created_At r)).

(** The row belongs to the group with this channel label. *)
Definition in_group (label : string) (r : Ticket) : bool :=
  Pd.eq_cell label (Channel r).

Definition group_scores (label : string) (df_f : DataFrame) : list float :=
  map CSAT_Score (List.filter (in_group label) df_f).

(** The resolution time of the row is strictly above the threshold. *)
Definition above (threshold : float) (r : Ticket) : bool :=
  threshold <? Resolution_Time_Minutes r.

(** The resolution time of the row is present. *)
Definition has_resolution_time (r : Ticket) : bool :=
  negb (is_nan (Resolution_Time_Minutes r)).

(** The row belongs to one of the two groups. *)
Definition in_either (label_a label_b : string) (r : Ticket) : bool :=
  in_group label_a r || in_group label_b r.

(** What the parser makes of one [Created_At] cell of a column. *)
Definition parsed_cell
  (parse_datetime : list (option string) -> string -> option Pd.parsed)
  (col : list (option string)) (c : option string) : option Pd.parsed :=
  match c with
  | Some s => parse_datetime col s
  | None => None
  end.

(** The table [load_data] builds when nothing is raised. *)
Definition loaded_table
  (parse_datetime : list (option string) -> string -> option Pd.parsed)
  (tbl : CsvTable) : DataFrame :=
  map (fun r => set_Created_At r
                  (option_map fst
                     (parsed_cell parse_datetime (map Created_At (csv_rows tbl))
                                  (Created_At r))))
      (csv_rows tbl).

(** The values of the column that parse carry one UTC offset, or none
    of them carries any. *)
Definition uniform_offsets
  (parse_datetime : list (option string) -> string -> option Pd.parsed)
  (col : list (option string)) : Prop :=
  forall s1 s2 p1 p2,
    In (Some s1) col -> In (Some s2) col ->
    parse_datetime col s1 = Some p1 -> parse_datetime col s2 = Some p2 ->
    snd p1 = snd p2.

(** The columns of a row other than [Created_At] are those of [r]. *)
Definition same_other_columns {T U : Type} (r : Row T) (t : Row U) : Prop :=
  Ticket_ID t = Ticket_ID r /\ Channel t = Channel r /\
  Issue_Type t = Issue_Type r /\
  Response_Time_Minutes t = Response_Time_Minutes r /\
  Resolution_Time_Minutes t = Resolution_Time_Minutes r /\
  CSAT_Score t = CSAT_Score r /\ CSAT_Binary t = CSAT_Binary r.

(** The [Created_At] cell after [errors="coerce"]. *)
Definition coerced (parse_datetime : string -> option timestamp)
  (c : option string) : option timestamp :=
  match c with
  | Some s => parse_datetime s
  | None => None
  end.

(** ** A small table to run the script on *)

Definition sample_parse (s : string) : option timestamp :=
  if String.eqb s "2024-01-01 09:15:00" then Some 1704100500000000000%Z
  else if String.eqb s "2024-01-01 18:00:00" then Some 1704132000000000000%Z
  else if String.eqb s "2024-01-02 00:00:00" then Some 1704153600000000000%Z
  else None.

Definition sample_raw : list RawRow :=
  [ mkRow "T1" (Some "2024-01-01 09:15:00") (Some "Chatbot") (Some "Billing")
          3 100 5 1;
    mkRow "T2" (Some "2024-01-01 18:00:00") (Some "Live Agent") (Some "Refund")
          8 200 1 0;
    mkRow "T3" (Some "yesterday") (Some "Chatbot") (Some "Billing")
          4 181 4 1;
    mkRow "T4" (Some "2024-01-02 00:00:00") (Some "Live Agent") (Some "Billing")
          6 180 2 0;
    mkRow "T5" None (Some "Email") None
          9 nan 3 0 ].

(** The same parser as the library sees it: no text of the sample
    carries a UTC offset. *)
Definition sample_parse_in (col : list (option string)) (s : string)
  : option Pd.parsed :=
  option_map (fun ts => (ts, None)) (sample_parse s).

Definition sample_columns : list string :=
  ["Ticket_ID"; "Created_At"; "Channel"; "Issue_Type"; "Response_Time_Minutes";
   "Resolution_Time_Minutes"; "CSAT_Score"; "CSAT_Binary"].

Definition sample_read_csv (filename : string) : result CsvTable :=
  if String.eqb filename "Uber_Customer_Support_Tickets_Prepared.csv"
  then Ok (mkCsvTable sample_columns sample_raw)
  else Raised FileNotFoundError.

(** A file whose two dates carry different UTC offsets. *)
Definition offsets_parse (col : list (option string)) (s : string)
  : option Pd.parsed :=
  if String.eqb s "2024-01-01 09:15:00+01:00"
  then Some (1704100500000000000%Z, Some 3600%Z)
  else if String.eqb s "2024-01-01 18:00:00+02:00"
  then Some (1704132000000000000%Z, Some 7200%Z)
  else None.

Definition offsets_raw : list RawRow :=
  [ mkRow "T1" (Some "2024-01-01 09:15:00+01:00") (Some "Chatbot")
          (Some "Billing") 3 100 5 1;
    mkRow "T2" (Some "2024-01-01 18:00:00+02:00") (Some "Live Agent")
          (Some "Refund") 8 200 1 0 ].

Definition offsets_read_csv (filename : string) : result CsvTable :=
  Ok (mkCsvTable sample_columns offsets_raw).

Definition sample_df : DataFrame :=
  map (fun r => set_Created_At r (coerced sample_parse (Created_At r))) sample_raw.

(** A stand-in for the survival function, to run the comparison. *)
Definition sample_t_sf (df x : float) : float := 1 / (2 + 2 * x * x).

(** The sample table with one more ticket, by e-mail, that has a date
    and an issue type. *)
Definition sample_df_email : DataFrame :=
  (sample_df
   ++ [ mkRow "T6" (Some 1704110400000000000%Z) (Some "Email") (Some "Billing")
              5 90 4 1 ])%list.

(** Tickets of one channel only. *)
Definition chatbot_only : DataFrame :=
  List.filter (in_group "Chatbot") sample_df.

(** * Properties *)

(** ** IEEE facts, from the specification of the primitive floats *)

(** Two floats are equal when their specifications are. *)
Ltac by_spec :=
  apply Prim2SF_inj;
  repeat first [ rewrite opp_spec | rewrite abs_spec | rewrite add_spec
               | rewrite sub_spec | rewrite div_spec ].

Section FloatFacts.

Implicit Types x y d : float.

Lemma Prim2SF_nan : Prim2SF nan = S754_nan.
Proof. reflexivity. Qed.

Lemma is_nan_spec x : is_nan x = true <-> x = nan.
Proof.
  unfold is_nan. rewrite eqb_spec. split.
  - intros H. apply Prim2SF_inj. rewrite Prim2SF_nan.
    destruct (Prim2SF x) as [s| s| |s m e]; try reflexivity;
      unfold SFeqb in H; simpl in H.
    + discriminate.
    + destruct s; discriminate.
    + destruct s; rewrite Z.compare_refl, Pos.compare_cont_refl in H;
        discriminate.
  - intros ->. reflexivity.
Qed.

(** Nothing is below, above or equal to NaN. *)
Lemma ltb_nan_r x : (x <? nan) = false.
Proof.
  rewrite ltb_spec, Prim2SF_nan. now destruct (Prim2SF x).
Qed.

Lemma ltb_nan_l x : (nan <? x) = false.
Proof.
  rewrite ltb_spec, Prim2SF_nan. reflexivity.
Qed.

Lemma SFcompare_swap (a b : spec_float) :
  SFcompare b a = option_map CompOpp (SFcompare a b).
Proof.
  destruct a as [sa|sa| |sa ma ea], b as [sb|sb| |sb mb eb]; simpl;
    try reflexivity;
    try (destruct sa; reflexivity); try (destruct sb; reflexivity);
    try (destruct sa, sb; reflexivity).
  destruct sa, sb; try reflexivity;
    rewrite (Z.compare_antisym ea eb);
    destruct (ea ?= eb)%Z; simpl; try reflexivity; f_equal.
  - rewrite CompOpp_involutive.
    exact (Pos.compare_cont_antisym mb ma Eq).
  - symmetry. exact (Pos.compare_cont_antisym ma mb Eq).
Qed.

(** Equal values are not strictly ordered. *)
Lemma eqb_not_ltb x y : (x =? y) = true -> (y <? x) = false.
Proof.
  rewrite eqb_spec, ltb_spec. unfold SFeqb, SFltb.
  rewrite (SFcompare_swap (Prim2SF x) (Prim2SF y)).
  destruct (SFcompare (Prim2SF x) (Prim2SF y)) as [[ | | ]|];
    simpl; congruence.
Qed.

Lemma add_comm x y : x + y = y + x.
Proof.
  by_spec.
  destruct (Prim2SF x) as [sx|sx| |sx mx ex],
           (Prim2SF y) as [sy|sy| |sy my ey]; simpl;
    try reflexivity; try (destruct sx, sy; reflexivity).
  unfold SF64add, SFadd. now rewrite Z.min_comm, Z.add_comm.
Qed.

Lemma opp_nan : - nan = nan.
Proof. reflexivity. Qed.

Lemma abs_opp x : abs (- x) = abs x.
Proof.
  by_spec. now destruct (Prim2SF x).
Qed.

Lemma binary_round_aux_opp s m e l :
  binary_round_aux prec emax (negb s) m e l
  = SFopp (binary_round_aux prec emax s m e l).
Proof.
  unfold binary_round_aux.
  destruct (shr_fexp prec emax m e l) as [mrs' e'].
  destruct (shr_fexp prec emax _ e' loc_Exact) as [mrs'' e''].
  destruct (shr_m mrs''); try reflexivity.
  now destruct (_ <=? _)%Z.
Qed.

Lemma binary_normalize_opp m e :
  m <> 0%Z ->
  binary_normalize prec emax (- m) e false
  = SFopp (binary_normalize prec emax m e false).
Proof.
  intros Hm. destruct m as [|p|p]; [congruence| |]; simpl;
    unfold binary_round;
    destruct (shl_align _ _ _) as [mz ez].
  - apply (binary_round_aux_opp false).
  - change false with (negb true) at 1. 
    now rewrite binary_round_aux_opp, <- (binary_round_aux_opp true).
Qed.

(** Exchanging the operands of a subtraction negates the result; when
    the result is zero both orders give [+0]. *)
Lemma sub_swap x y :
  y - x = - (x - y) \/ (x - y = 0 /\ y - x = 0).
Proof.
  assert (Hz : Prim2SF 0 = S754_zero false) by reflexivity.
  destruct (Prim2SF x) as [sx|sx| |sx mx ex] eqn:Ex,
           (Prim2SF y) as [sy|sy| |sy my ey] eqn:Ey.
  1-15: try (left; by_spec; rewrite Ex, Ey;
             simpl; try reflexivity; destruct sx, sy; reflexivity).
  - destruct sx, sy;
      try (left; by_spec; rewrite Ex, Ey; reflexivity);
      right; split; by_spec; rewrite Ex, Ey; reflexivity.
  - set (ez := Z.min ex ey).
    set (a := cond_Zopp sx (Z.pos (fst (shl_align mx ex ez)))).
    set (b := cond_Zopp sy (Z.pos (fst (shl_align my ey ez)))).
    assert (Hxy : Prim2SF (x - y) = binary_normalize prec emax (a - b) ez false).
    { rewrite sub_spec, Ex, Ey. reflexivity. }
    assert (Hyx : Prim2SF (y - x) = binary_normalize prec emax (b - a) ez false).
    { rewrite sub_spec, Ex, Ey. unfold SF64sub, SFsub.
      rewrite (Z.min_comm ey ex). reflexivity. }
    destruct (Z.eq_dec (a - b) 0) as [H0|H0].
    + right. split; apply Prim2SF_inj; rewrite Hz.
      * rewrite Hxy, H0. reflexivity.
      * rewrite Hyx. replace (b - a)%Z with 0%Z by lia. reflexivity.
    + left. apply Prim2SF_inj.
      rewrite opp_spec, Hxy, Hyx.
      replace (b - a)%Z with (- (a - b))%Z by lia.
      now apply binary_normalize_opp.
Qed.

Lemma div_opp_l x d : (- x) / d = - (x / d).
Proof.
  by_spec.
  destruct (Prim2SF x) as [sx|sx| |sx mx ex],
           (Prim2SF d) as [sd|sd| |sd md ed]; simpl;
    try reflexivity; try (destruct sx, sd; reflexivity).
  destruct (SFdiv_core_binary prec emax (Z.pos mx) ex (Z.pos md) ed)
    as [[mz ez] lz].
  rewrite <- binary_round_aux_opp. now destruct sx, sd.
Qed.

(** Zero divided by anything is a zero or NaN. *)
Lemma zero_div d : 0 / d = 0 \/ 0 / d = -0 \/ 0 / d = nan.
Proof.
  destruct (Prim2SF d) as [sd|sd| |sd md ed] eqn:Ed.
  - right. right. by_spec. rewrite Ed. reflexivity.
  - destruct sd; [right; left | left]; by_spec; rewrite Ed; reflexivity.
  - right. right. by_spec. rewrite Ed. reflexivity.
  - destruct sd; [right; left | left]; by_spec; rewrite Ed; reflexivity.
Qed.

Lemma same_value_refl x : same_value x x = true.
Proof.
  unfold same_value, is_nan. now destruct (x =? x).
Qed.

End FloatFacts.

(** ** Masks and boolean indexing *)

Section Masks.

Context {A : Type}.
Implicit Types (p q : A -> bool) (l : list A).

(** Indexing a table by the mask of a row predicate keeps exactly the
    rows that satisfy it, in order. *)
Lemma loc_map p l : Pd.loc l (map p l) = List.filter p l.
Proof.
  induction l as [|r l IH]; simpl; [reflexivity|].
  rewrite IH. reflexivity.
Qed.

Lemma band_map p q l :
  Pd.band (map p l) (map q l) = map (fun r => p r && q r) l.
Proof.
  induction l as [|r l IH]; simpl; congruence.
Qed.

Lemma filter_filter p q l :
  List.filter p (List.filter q l) = List.filter (fun r => q r && p r) l.
Proof.
  induction l as [|r l IH]; simpl; [reflexivity|].
  destruct (q r); simpl; rewrite IH; reflexivity.
Qed.

Lemma filter_idem p l : List.filter p (List.filter p l) = List.filter p l.
Proof.
  rewrite filter_filter. apply filter_ext. intros r. now destruct (p r).
Qed.

End Masks.

Lemma isin_cell_spec (values : list string) (c : option string) :
  Pd.isin_cell values c = true <-> exists s, c = Some s /\ In s values.
Proof.
  destruct c as [s|]; simpl.
  - rewrite existsb_exists. split.
    + intros (v & Hv & E). apply String.eqb_eq in E. subst v.
      exists s. now split.
    + intros (v & [= <-] & Hv). exists s. split; [assumption|].
      apply String.eqb_refl.
  - split; [discriminate|]. now intros (s & [=] & _).
Qed.

Lemma filter_mask_rows (df : DataFrame) (channel_filter issue_filter : list string)
  (date_range : date * date) :
  filter_mask df channel_filter issue_filter date_range
  = map (row_passes channel_filter issue_filter date_range) df.
Proof.
  unfold filter_mask, Pd.isin, Pd.ge_date, Pd.le_date, Pd.dt_date.
  rewrite !map_map, !band_map. reflexivity.
Qed.

Lemma apply_filters_filter (df : DataFrame) (channel_filter issue_filter : list string)
  (date_range : date * date) :
  apply_filters df channel_filter issue_filter date_range
  = List.filter (row_passes channel_filter issue_filter date_range) df.
Proof.
  unfold apply_filters. rewrite filter_mask_rows. apply loc_map.
Qed.

Lemma row_passes_spec (channel_filter issue_filter : list string)
  (date_start date_end : date) (r : Ticket) :
  row_passes channel_filter issue_filter (date_start, date_end) r = true <->
  (exists c, Channel r = Some c /\ In c channel_filter) /\
  (exists i, Issue_Type r = Some i /\ In i issue_filter) /\
  (exists ts, Created_At r = Some ts
              /\ (date_start <= date_of ts <= date_end)%Z).
Proof.
  unfold row_passes. rewrite !andb_true_iff, !isin_cell_spec. simpl.
  destruct (Created_At r) as [ts|]; simpl.
  - rewrite !Z.leb_le. split.
    + intros [[[Hc Hi] Hs] He]. repeat split; try assumption.
      exists ts. split; [reflexivity | lia].
    + intros (Hc & Hi & ts' & [= <-] & Hs & He). auto.
  - split.
    + intros [[_ Hs] _]. discriminate.
    + intros (_ & _ & ts & [=] & _).
Qed.

(** ** The sidebar filter *)

(** C1: a row is in the filtered table exactly when it is a row of the
    dataset whose channel is one of the allowed channels, whose issue
    type is one of the allowed issue types and whose creation date, the
    timestamp without its time of day, lies in the inclusive interval
    from [date_start] to [date_end]; a row without creation timestamp is
    never in the filtered table. *)
Theorem filter_membership (df : DataFrame) (channel_filter issue_filter : list string)
  (date_start date_end : date) (r : Ticket) :
  (In r (apply_filters df channel_filter issue_filter (date_start, date_end)) <->
   In r df /\
   (exists c, Channel r = Some c /\ In c channel_filter) /\
   (exists i, Issue_Type r = Some i /\ In i issue_filter) /\
   (exists ts, Created_At r = Some ts
               /\ (date_start <= date_of ts <= date_end)%Z)) /\
  (Created_At r = None ->
   ~ In r (apply_filters df channel_filter issue_filter (date_start, date_end))) /\
  (forall day time_of_day : Z,
      (0 <= time_of_day < ns_per_day)%Z ->
      date_of (day * ns_per_day + time_of_day)%Z = day).
Proof.
  rewrite apply_filters_filter, filter_In, row_passes_spec.
  split; [reflexivity|]. split.
  - intros Hnat (_ & _ & _ & ts & Hts & _). congruence.
  - intros day t Ht. unfold date_of.
    rewrite Z.add_comm, Z.div_add by (unfold ns_per_day; lia).
    rewrite Z.div_small by assumption. reflexivity.
Qed.

(** C7: filtering the filtered table again with the same channels,
    issue types and date range returns the filtered table. *)
Theorem filter_idempotent (df : DataFrame) (channel_filter issue_filter : list string)
  (date_range : date * date) :
  apply_filters (apply_filters df channel_filter issue_filter date_range)
                channel_filter issue_filter date_range
  = apply_filters df channel_filter issue_filter date_range.
Proof.
  rewrite !apply_filters_filter. apply filter_idem.
Qed.

(** ** The KPI row *)

(** C5: on the empty filtered table each of the four KPIs (mean CSAT,
    mean resolution time, mean tickets per day, happy-customer
    percentage) is NaN; [compute_metrics] is a total function of the
    table, so nothing is raised and nothing is modified. *)
Theorem metrics_of_empty_table :
  compute_metrics [] = mkMetrics nan nan nan nan.
Proof.
  vm_compute. reflexivity.
Qed.

(** ** The resolution-time scan *)

Lemma anomalies_filter (df_f : DataFrame) (threshold : float) :
  anomalies df_f threshold = List.filter (above threshold) df_f.
Proof.
  unfold anomalies, Pd.gt_scalar. rewrite map_map. apply loc_map.
Qed.

Lemma above_has_resolution_time (threshold : float) (r : Ticket) :
  above threshold r = true -> has_resolution_time r = true.
Proof.
  unfold above, has_resolution_time. intros H.
  destruct (is_nan (Resolution_Time_Minutes r)) eqn:E; [|reflexivity].
  apply is_nan_spec in E. rewrite E, ltb_nan_r in H. discriminate.
Qed.

(** C3: the scan keeps exactly the rows of the table whose resolution
    time is strictly above the threshold, in the order of the table (a
    row whose resolution time equals the threshold is left out); the
    count written is the number of all such rows, with no cap; the table
    shown holds the first 20 of them at most, each reduced to the seven
    columns of [project]. *)
Theorem scan_threshold_spec (df_f : DataFrame) (threshold : float) :
  let qualifying := List.filter (above threshold) df_f in
  anomalies df_f threshold = qualifying /\
  (forall r, In r (anomalies df_f threshold) <->
             In r df_f /\ (threshold <? Resolution_Time_Minutes r) = true) /\
  (forall r, (Resolution_Time_Minutes r =? threshold) = true ->
             ~ In r (anomalies df_f threshold)) /\
  fst (scan_threshold df_f threshold) = List.length qualifying /\
  snd (scan_threshold df_f threshold)
  = match qualifying with
    | [] => NoTicketsAbove
    | _ => Table (map project (firstn 20 qualifying))
    end /\
  List.length (firstn 20 qualifying) = Nat.min 20 (List.length qualifying) /\
  (forall r, project r
             = mkAnomalyRow (Ticket_ID r) (Created_At r) (Channel r)
                            (Issue_Type r) (Response_Time_Minutes r)
                            (Resolution_Time_Minutes r) (CSAT_Score r)).
Proof.
  intros qualifying. unfold scan_threshold.
  rewrite anomalies_filter. fold qualifying.
  split; [reflexivity|]. split; [|split; [|split; [|split; [|split]]]].
  - intros r. unfold qualifying. rewrite filter_In. reflexivity.
  - intros r E H. apply filter_In in H. destruct H as [_ H].
    unfold above in H. apply eqb_not_ltb in E. congruence.
  - reflexivity.
  - cbv [snd Pd.head]. rewrite firstn_map. reflexivity.
  - apply length_firstn.
  - reflexivity.
Qed.

(** C10: a row whose resolution time is missing is never among the
    anomalies, whatever the threshold, and dropping all such rows from
    the table changes neither the count nor the table shown. *)
Theorem missing_resolution_time_not_flagged (df_f : DataFrame) (threshold : float) :
  (forall r, Resolution_Time_Minutes r = nan ->
             ~ In r (anomalies df_f threshold)) /\
  (forall r, In r (anomalies df_f threshold) ->
             is_nan (Resolution_Time_Minutes r) = false) /\
  scan_threshold df_f threshold
  = scan_threshold (List.filter has_resolution_time df_f) threshold.
Proof.
  assert (Hin : forall r, In r (anomalies df_f threshold) ->
                          is_nan (Resolution_Time_Minutes r) = false).
  { intros r H. rewrite anomalies_filter in H. apply filter_In in H.
    destruct H as [_ H]. apply above_has_resolution_time in H.
    unfold has_resolution_time in H. now apply negb_true_iff in H. }
  repeat split.
  - intros r E H. apply Hin in H. rewrite E in H. discriminate.
  - exact Hin.
  - unfold scan_threshold. rewrite !anomalies_filter, filter_filter.
    assert (E : List.filter (fun r => has_resolution_time r && above threshold r) df_f
                = List.filter (above threshold) df_f).
    { apply filter_ext. intros r.
      destruct (above threshold r) eqn:Ha.
      - now rewrite (above_has_resolution_time _ _ Ha).
      - apply andb_false_r. }
    now rewrite E.
Qed.

(** ** The loader *)

Section Loader.

Variable read_csv : string -> result CsvTable.
Variable parse_datetime : list (option string) -> string -> option Pd.parsed.

Lemma mapM_coerce (col0 col : list (option string)) :
  mapM (Pd.to_datetime_cell parse_datetime Pd.errors_coerce col0) col
  = Ok (map (parsed_cell parse_datetime col0) col).
Proof.
  induction col as [|c col IH]; simpl; [reflexivity|].
  rewrite IH. destruct c as [s|]; simpl; [|reflexivity].
  now destruct (parse_datetime col0 s).
Qed.

Lemma offset_eqb_eq (a b : option Z) : Pd.offset_eqb a b = true <-> a = b.
Proof.
  destruct a as [x|], b as [y|]; simpl; try (split; [discriminate|congruence]).
  - rewrite Z.eqb_eq. split; congruence.
  - split; reflexivity.
Qed.

Lemma mixed_offsets_false (offs : list (option Z)) :
  Pd.mixed_offsets offs = false <-> forall a b, In a offs -> In b offs -> a = b.
Proof.
  destruct offs as [|o rest]; simpl.
  - split; [intros _ a b [] | reflexivity].
  - rewrite negb_false_iff, forallb_forall. split.
    + intros H a b Ha Hb.
      assert (Ho : forall x, o = x \/ In x rest -> o = x).
      { intros x [E|Hx]; [exact E | now apply offset_eqb_eq, H]. }
      rewrite <- (Ho a Ha), <- (Ho b Hb). reflexivity.
    + intros H x Hx. apply offset_eqb_eq. apply H; auto.
Qed.

Lemma offsets_In (o : option Z) (cells : list (option Pd.parsed)) :
  In o (Pd.offsets cells) <-> exists p, In (Some p) cells /\ snd p = o.
Proof.
  induction cells as [|[p|] cells IH]; simpl.
  - split; [intros [] | intros (p & [] & _)].
  - rewrite IH. split.
    + intros [E|(q & Hq & E)]; [exists p | exists q]; auto.
    + intros (q & [[= <-]|Hq] & E); [left | right; exists q]; auto.
  - rewrite IH. split.
    + intros (q & Hq & E). exists q. auto.
    + intros (q & [Hq|Hq] & E); [discriminate | exists q; auto].
Qed.

Lemma parsed_cell_In (col0 col : list (option string)) (p : Pd.parsed) :
  In (Some p) (map (parsed_cell parse_datetime col0) col) <->
  exists s, In (Some s) col /\ parse_datetime col0 s = Some p.
Proof.
  rewrite in_map_iff. split.
  - intros ([s|] & E & Hc); simpl in E; [|discriminate]. exists s. auto.
  - intros (s & Hs & E). exists (Some s). auto.
Qed.

(** The check of the whole column, read on the texts. *)
Lemma uniform_offsets_spec (col : list (option string)) :
  Pd.mixed_offsets (Pd.offsets (map (parsed_cell parse_datetime col) col)) = false
  <-> uniform_offsets parse_datetime col.
Proof.
  rewrite mixed_offsets_false. unfold uniform_offsets. split.
  - intros H s1 s2 p1 p2 H1 H2 E1 E2.
    apply H; apply offsets_In; [exists p1 | exists p2];
      (split; [apply parsed_cell_In; eauto | reflexivity]).
  - intros H a b Ha Hb.
    apply offsets_In in Ha, Hb.
    destruct Ha as (p1 & Hp1 & <-), Hb as (p2 & Hp2 & <-).
    apply parsed_cell_In in Hp1, Hp2.
    destruct Hp1 as (s1 & H1 & E1), Hp2 as (s2 & H2 & E2). eauto.
Qed.

Lemma assign_Created_At_map {T U : Type} (f : T -> U) (df : list (Row T)) :
  assign_Created_At df (map f (map Created_At df))
  = map (fun r => set_Created_At r (f (Created_At r))) df.
Proof.
  induction df as [|r df IH]; simpl; congruence.
Qed.

Local Abbreviation loaded := (loaded_table parse_datetime).

Lemma load_data_eq (filename : string) (tbl : CsvTable) :
  read_csv filename = Ok tbl ->
  load_data read_csv parse_datetime filename
  = if existsb (String.eqb "Created_At") (csv_columns tbl)
    then if Pd.mixed_offsets
              (Pd.offsets (map (parsed_cell parse_datetime
                                            (map Created_At (csv_rows tbl)))
                               (map Created_At (csv_rows tbl))))
         then Raised ValueError
         else Ok (loaded tbl)
    else Raised KeyError.
Proof.
  intros H. unfold load_data, getitem_Created_At. rewrite H. simpl.
  destruct (existsb _ _); [|reflexivity]. simpl.
  unfold Pd.to_datetime. rewrite mapM_coerce. simpl.
  destruct (Pd.mixed_offsets _); [reflexivity|]. simpl.
  rewrite map_map, assign_Created_At_map. reflexivity.
Qed.

Lemma has_column_spec (tbl : CsvTable) :
  existsb (String.eqb "Created_At") (csv_columns tbl) = true
  <-> In "Created_At" (csv_columns tbl).
Proof.
  rewrite existsb_exists. split.
  - intros (c & Hc & E). apply String.eqb_eq in E. now subst c.
  - intros H. exists "Created_At". split; [exact H | reflexivity].
Qed.

Lemma loaded_rows (tbl : CsvTable) :
  let col := map Created_At (csv_rows tbl) in
  Forall2 (fun (r : RawRow) (t : Ticket) =>
             same_other_columns r t /\
             Created_At t = option_map fst (parsed_cell parse_datetime col (Created_At r)))
          (csv_rows tbl) (loaded tbl).
Proof.
  intros col. unfold loaded_table. fold col. generalize col. intros c0.
  induction (csv_rows tbl) as [|r rows IH]; simpl; constructor; [|exact IH].
  split; [repeat split | reflexivity].
Qed.

(** C8, as amended: for a file that has the [Created_At] column and
    whose dates that parse share one UTC offset (or carry none),
    [load_data] returns a table and raises nothing, whatever the other
    texts of the column are; the table has one row per row of the file,
    in the same order; each row keeps its seven other columns; its
    creation timestamp is what the text parses to, and is missing when
    the text does not parse or the cell is empty. *)
Theorem load_data_keeps_rows (filename : string) (tbl : CsvTable) :
  read_csv filename = Ok tbl ->
  In "Created_At" (csv_columns tbl) ->
  uniform_offsets parse_datetime (map Created_At (csv_rows tbl)) ->
  exists df : DataFrame,
    load_data read_csv parse_datetime filename = Ok df /\
    List.length df = List.length (csv_rows tbl) /\
    Forall2 (fun (r : RawRow) (t : Ticket) =>
               Ticket_ID t = Ticket_ID r /\ Channel t = Channel r /\
               Issue_Type t = Issue_Type r /\
               Response_Time_Minutes t = Response_Time_Minutes r /\
               Resolution_Time_Minutes t = Resolution_Time_Minutes r /\
               CSAT_Score t = CSAT_Score r /\ CSAT_Binary t = CSAT_Binary r /\
               (forall s, Created_At r = Some s ->
                  Created_At t
                  = option_map fst
                      (parse_datetime (map Created_At (csv_rows tbl)) s)) /\
               (forall s, Created_At r = Some s ->
                  parse_datetime (map Created_At (csv_rows tbl)) s = None ->
                  Created_At t = None) /\
               (Created_At r = None -> Created_At t = None))
            (csv_rows tbl) df.
Proof.
  intros Hread Hcol Huni. exists (loaded tbl).
  rewrite (load_data_eq _ _ Hread).
  apply has_column_spec in Hcol. apply uniform_offsets_spec in Huni.
  rewrite Hcol, Huni. split; [reflexivity|].
  split; [apply length_map|].
  eapply Forall2_impl; [|apply loaded_rows].
  intros r t [(H1 & H2 & H3 & H4 & H5 & H6 & H7) Ht]. simpl in Ht.
  repeat split; try assumption.
  - intros s E. now rewrite Ht, E.
  - intros s E Hs. rewrite Ht, E. simpl. now rewrite Hs.
  - intros E. now rewrite Ht, E.
Qed.

(** X1: [load_data] raises in three cases and no other: [read_csv]
    raises, and the exception is that one; the file has no [Created_At]
    column, a KeyError; the dates that parse do not share one UTC
    offset, a ValueError.  A date that does not parse never makes it
    raise. *)
Theorem load_data_raises_iff (filename : string) (e : exn) :
  load_data read_csv parse_datetime filename = Raised e <->
  read_csv filename = Raised e \/
  exists tbl, read_csv filename = Ok tbl /\
    ((~ In "Created_At" (csv_columns tbl) /\ e = KeyError) \/
     (In "Created_At" (csv_columns tbl) /\
      ~ uniform_offsets parse_datetime (map Created_At (csv_rows tbl)) /\
      e = ValueError)).
Proof.
  destruct (read_csv filename) as [tbl|e'] eqn:E.
  - rewrite (load_data_eq _ _ E).
    destruct (existsb _ _) eqn:Hc; [destruct (Pd.mixed_offsets _) eqn:Hm|].
    + assert (Hin : In "Created_At" (csv_columns tbl)) by now apply has_column_spec.
      assert (Hnu : ~ uniform_offsets parse_datetime (map Created_At (csv_rows tbl))).
      { intros H. apply uniform_offsets_spec in H. congruence. }
      split.
      * intros [= <-]. right. exists tbl. split; [reflexivity|]. right. auto.
      * intros [H|(t & [= <-] & [[H _]|(_ & _ & ->)])];
          [discriminate | contradiction | reflexivity].
    + assert (Hin : In "Created_At" (csv_columns tbl)) by now apply has_column_spec.
      apply uniform_offsets_spec in Hm.
      split; [discriminate|].
      intros [H|(t & [= <-] & [[H _]|(_ & H & _)])];
        [discriminate | contradiction | contradiction].
    + assert (Hnin : ~ In "Created_At" (csv_columns tbl)).
      { intros H. apply has_column_spec in H. congruence. }
      split.
      * intros [= <-]. right. exists tbl. split; [reflexivity|]. left. auto.
      * intros [H|(t & [= <-] & [[_ ->]|(H & _)])];
          [discriminate | reflexivity | contradiction].
  - unfold load_data. rewrite E. simpl. split.
    + intros [= ->]. now left.
    + intros [[= ->]|(t & H & _)]; [reflexivity | discriminate].
Qed.

(** X2: in a file that loads, a row whose creation date is empty or
    does not parse keeps its place and its other columns in the table
    loaded, with a missing timestamp, and no choice of channels, issue
    types and date range lets it into the filtered table. *)
Theorem unparsed_rows_never_pass (filename : string) (tbl : CsvTable)
  (i : nat) (r : RawRow) :
  read_csv filename = Ok tbl ->
  In "Created_At" (csv_columns tbl) ->
  uniform_offsets parse_datetime (map Created_At (csv_rows tbl)) ->
  nth_error (csv_rows tbl) i = Some r ->
  parsed_cell parse_datetime (map Created_At (csv_rows tbl)) (Created_At r) = None ->
  exists (df : DataFrame) (t : Ticket),
    load_data read_csv parse_datetime filename = Ok df /\
    nth_error df i = Some t /\
    Ticket_ID t = Ticket_ID r /\ Channel t = Channel r /\
    Issue_Type t = Issue_Type r /\
    Response_Time_Minutes t = Response_Time_Minutes r /\
    Resolution_Time_Minutes t = Resolution_Time_Minutes r /\
    CSAT_Score t = CSAT_Score r /\ CSAT_Binary t = CSAT_Binary r /\
    Created_At t = None /\
    forall channel_filter issue_filter date_range,
      ~ In t (apply_filters df channel_filter issue_filter date_range).
Proof.
  intros Hread Hcol Huni Hnth Hnone.
  exists (loaded tbl), (set_Created_At r None).
  rewrite (load_data_eq _ _ Hread).
  apply has_column_spec in Hcol. apply uniform_offsets_spec in Huni.
  rewrite Hcol, Huni. split; [reflexivity|]. split.
  - unfold loaded_table. rewrite (map_nth_error _ _ _ Hnth), Hnone. reflexivity.
  - repeat split. intros cf iss [lo hi] H.
    rewrite apply_filters_filter in H.
    apply filter_In in H. destruct H as [_ H].
    apply row_passes_spec in H. destruct H as (_ & _ & ts & Hts & _).
    discriminate.
Qed.

End Loader.

Lemma sample_offsets_uniform (col : list (option string)) :
  uniform_offsets sample_parse_in col.
Proof.
  intros s1 s2 p1 p2 _ _. unfold sample_parse_in.
  destruct (sample_parse s1), (sample_parse s2); simpl; try discriminate.
  now intros [= <-] [= <-].
Qed.

Lemma load_data_keeps_rows_witness :
  exists df : DataFrame,
    load_data sample_read_csv sample_parse_in
              "Uber_Customer_Support_Tickets_Prepared.csv" = Ok df /\
    List.length df = List.length sample_raw /\
    Forall2 (fun (r : RawRow) (t : Ticket) =>
               Ticket_ID t = Ticket_ID r /\ Channel t = Channel r /\
               Issue_Type t = Issue_Type r /\
               Response_Time_Minutes t = Response_Time_Minutes r /\
               Resolution_Time_Minutes t = Resolution_Time_Minutes r /\
               CSAT_Score t = CSAT_Score r /\ CSAT_Binary t = CSAT_Binary r /\
               (forall s, Created_At r = Some s ->
                  Created_At t
                  = option_map fst (sample_parse_in (map Created_At sample_raw) s)) /\
               (forall s, Created_At r = Some s ->
                  sample_parse_in (map Created_At sample_raw) s = None ->
                  Created_At t = None) /\
               (Created_At r = None -> Created_At t = None))
            sample_raw df.
Proof.
  apply (load_data_keeps_rows sample_read_csv sample_parse_in
           "Uber_Customer_Support_Tickets_Prepared.csv"
           (mkCsvTable sample_columns sample_raw)).
  - reflexivity.
  - simpl. auto.
  - apply sample_offsets_uniform.
Defined.

(** C8, as stated, fails on a file whose two dates carry the offsets
    +01:00 and +02:00: both texts parse, and line 15 raises a
    ValueError, so no table is loaded for the two rows of the file. *)
Lemma load_data_mixed_offsets_raises :
  load_data offsets_read_csv offsets_parse
            "Uber_Customer_Support_Tickets_Prepared.csv" = Raised ValueError /\
  ~ (exists df : DataFrame,
       load_data offsets_read_csv offsets_parse
                 "Uber_Customer_Support_Tickets_Prepared.csv" = Ok df /\
       List.length df = List.length offsets_raw).
Proof.
  assert (E : load_data offsets_read_csv offsets_parse
                "Uber_Customer_Support_Tickets_Prepared.csv" = Raised ValueError)
    by reflexivity.
  split; [exact E|]. intros (df & H & _). rewrite E in H. discriminate.
Qed.

Lemma unparsed_rows_never_pass_witness :
  exists (df : DataFrame) (t : Ticket),
    load_data sample_read_csv sample_parse_in
              "Uber_Customer_Support_Tickets_Prepared.csv" = Ok df /\
    nth_error df 2 = Some t /\
    Ticket_ID t = "T3" /\ Channel t = Some "Chatbot" /\
    Issue_Type t = Some "Billing" /\
    Response_Time_Minutes t = 4 /\
    Resolution_Time_Minutes t = 181 /\
    CSAT_Score t = 4 /\ CSAT_Binary t = 1 /\
    Created_At t = None /\
    forall channel_filter issue_filter date_range,
      ~ In t (apply_filters df channel_filter issue_filter date_range).
Proof.
  apply (unparsed_rows_never_pass sample_read_csv sample_parse_in
           "Uber_Customer_Support_Tickets_Prepared.csv"
           (mkCsvTable sample_columns sample_raw) 2
           (mkRow "T3" (Some "yesterday") (Some "Chatbot") (Some "Billing")
                  4 181 4 1)).
  - reflexivity.
  - simpl. auto.
  - apply sample_offsets_uniform.
  - reflexivity.
  - reflexivity.
Defined.

(** The sample file loads into [sample_df]: the third row keeps its
    place with a missing timestamp. *)
Example load_sample :
  load_data sample_read_csv sample_parse_in
            "Uber_Customer_Support_Tickets_Prepared.csv" = Ok sample_df
  /\ map Created_At sample_df
     = [Some 1704100500000000000%Z; Some 1704132000000000000%Z; None;
        Some 1704153600000000000%Z; None].
Proof.
  split; reflexivity.
Qed.

(** A file without the column, and a file that is not there. *)
Example load_failures :
  load_data (fun _ => Ok (mkCsvTable ["Ticket_ID"; "Channel"] sample_raw))
            sample_parse_in "Uber_Customer_Support_Tickets_Prepared.csv"
  = Raised KeyError
  /\ load_data sample_read_csv sample_parse_in "tickets.csv"
     = Raised FileNotFoundError.
Proof.
  split; reflexivity.
Qed.

(** ** The Chatbot / Live Agent comparison *)

Section Comparison.

Variable t_sf : float -> float -> float.

Lemma isin_two_labels (df_f : DataFrame) (label_a label_b : string) :
  Pd.isin (map Channel df_f) [label_a; label_b]
  = map (in_either label_a label_b) df_f.
Proof.
  unfold Pd.isin. rewrite map_map. apply map_ext. intros r.
  unfold in_either, in_group. destruct (Channel r) as [s|]; simpl.
  - now rewrite orb_false_r.
  - reflexivity.
Qed.

Lemma group_of_ab_df (df_f : DataFrame) (label_a label_b label : string) :
  label = label_a \/ label = label_b ->
  let ab_df := List.filter (in_either label_a label_b) df_f in
  map CSAT_Score (Pd.loc ab_df (Pd.eq_scalar (map Channel ab_df) label))
  = group_scores label df_f.
Proof.
  intros Hl ab_df. unfold Pd.eq_scalar, group_scores.
  rewrite map_map.
  change (fun r : Ticket => Pd.eq_cell label (Channel r)) with (in_group label).
  rewrite loc_map. unfold ab_df. rewrite filter_filter. f_equal.
  apply filter_ext. intros r. unfold in_either, in_group.
  destruct Hl as [-> | ->];
    destruct (Pd.eq_cell label_a (Channel r)), (Pd.eq_cell label_b (Channel r));
    reflexivity.
Qed.

(** The comparison in terms of the two groups of the filtered table. *)
Lemma compare_groups_eq (df_f : DataFrame) (label_a label_b : string) :
  compare_groups t_sf df_f label_a label_b
  = if (List.length (List.filter (in_either label_a label_b) df_f) <? 2)%nat
    then NotEnoughData
    else
      let chatbot := group_scores label_a df_f in
      let agent := group_scores label_b df_f in
      Tested (List.length chatbot) (List.length agent)
             (Pd.mean chatbot) (Pd.mean agent)
             (fst (Sp.ttest_ind t_sf chatbot agent))
             (snd (Sp.ttest_ind t_sf chatbot agent))
             (if snd (Sp.ttest_ind t_sf chatbot agent) <? alpha
              then SignificantDifference else NoSignificantDifference).
Proof.
  unfold compare_groups. rewrite isin_two_labels, loc_map.
  destruct (_ <? 2)%nat; [reflexivity|].
  rewrite !group_of_ab_df by auto.
  now destruct (Sp.ttest_ind t_sf _ _).
Qed.

(** C2: with fewer than two rows in the two groups taken together the
    tab reports that there is not enough data and no test result
    exists; with two rows or more, two included, the Welch test is run
    on the two groups and its statistic and p-value are reported. *)
Theorem insufficient_data_guard (df_f : DataFrame) :
  let n := List.length (List.filter (in_either "Chatbot" "Live Agent") df_f) in
  let chatbot := group_scores "Chatbot" df_f in
  let agent := group_scores "Live Agent" df_f in
  ((n < 2)%nat -> ab_test t_sf df_f = NotEnoughData) /\
  ((2 <= n)%nat ->
   exists v,
     ab_test t_sf df_f
     = Tested (List.length chatbot) (List.length agent)
              (Pd.mean chatbot) (Pd.mean agent)
              (fst (Sp.ttest_ind t_sf chatbot agent))
              (snd (Sp.ttest_ind t_sf chatbot agent)) v).
Proof.
  intros n chatbot agent. unfold ab_test. rewrite compare_groups_eq.
  fold n. split; intros Hn.
  - apply Nat.ltb_lt in Hn. now rewrite Hn.
  - apply Nat.ltb_ge in Hn. rewrite Hn. eexists. reflexivity.
Qed.

(** C4: whenever the test is reached, the verdict is a significant
    difference exactly when the p-value is strictly below [alpha], the
    constant 0.05 of the script, and no significant difference in every
    other case, a NaN p-value included. *)
Theorem significance_verdict (df_f : DataFrame) (n_a n_b : nat)
  (mean_a mean_b t_stat p_val : float) (v : verdict) :
  ab_test t_sf df_f = Tested n_a n_b mean_a mean_b t_stat p_val v ->
  (v = SignificantDifference <-> (p_val <? alpha) = true) /\
  (v = NoSignificantDifference <-> (p_val <? alpha) = false) /\
  (p_val = nan -> v = NoSignificantDifference) /\
  alpha = 0x1.999999999999ap-5.
Proof.
  unfold ab_test. rewrite compare_groups_eq.
  destruct (_ <? 2)%nat; [discriminate|].
  intros [= _ _ _ _ _ <- <-].
  set (p := snd _).
  assert (Hnan : p = nan -> (p <? alpha) = false).
  { intros ->. apply ltb_nan_l. }
  destruct (p <? alpha) eqn:E.
  - repeat split; try congruence; try discriminate.
    intros Hp. apply Hnan in Hp. congruence.
  - repeat split; try congruence; discriminate.
Qed.

Lemma unequal_var_ttest_denom_swap (v1 n1 v2 n2 : float) :
  Sp.unequal_var_ttest_denom v2 n2 v1 n1 = Sp.unequal_var_ttest_denom v1 n1 v2 n2.
Proof.
  unfold Sp.unequal_var_ttest_denom.
  rewrite (add_comm (v2 / n2) (v1 / n1)).
  rewrite (add_comm (v2 / n2 * (v2 / n2) / (n2 - 1))).
  reflexivity.
Qed.

(** Exchanging the two samples negates the statistic and keeps the
    p-value. *)
Lemma ttest_ind_swap (a b : list float) :
  same_value (fst (Sp.ttest_ind t_sf b a)) (- fst (Sp.ttest_ind t_sf a b)) = true
  /\ snd (Sp.ttest_ind t_sf b a) = snd (Sp.ttest_ind t_sf a b).
Proof.
  destruct a as [|x a], b as [|y b]; try (split; reflexivity).
  unfold Sp.ttest_ind.
  rewrite unequal_var_ttest_denom_swap.
  destruct (Sp.unequal_var_ttest_denom _ _ _ _) as [df denom].
  cbv [fst snd].
  destruct (sub_swap (Sp.np_mean (x :: a)) (Sp.np_mean (y :: b)))
    as [E | [E1 E2]].
  - rewrite E, div_opp_l, abs_opp. split; [apply same_value_refl | reflexivity].
  - rewrite E1, E2. split; [|reflexivity].
    destruct (zero_div denom) as [-> | [-> | ->]]; reflexivity.
Qed.

Lemma in_either_swap (label_a label_b : string) (df_f : DataFrame) :
  List.filter (in_either label_b label_a) df_f
  = List.filter (in_either label_a label_b) df_f.
Proof.
  apply filter_ext. intros r. apply orb_comm.
Qed.

(** C6: exchanging the two group labels exchanges the sizes and the
    means, negates the test statistic (as a value: a zero statistic
    stays zero and an undefined one stays undefined) and leaves the
    p-value, hence the verdict, as it was; the guard is the same for
    both orders. *)
Theorem compare_groups_swap (df_f : DataFrame) (label_a label_b : string) :
  match compare_groups t_sf df_f label_a label_b,
        compare_groups t_sf df_f label_b label_a with
  | NotEnoughData, NotEnoughData => True
  | Tested n_a n_b mean_a mean_b t_stat p_val v,
    Tested n_a' n_b' mean_a' mean_b' t_stat' p_val' v' =>
      n_a' = n_b /\ n_b' = n_a /\ mean_a' = mean_b /\ mean_b' = mean_a /\
      same_value t_stat' (- t_stat) = true /\ p_val' = p_val /\ v' = v
  | _, _ => False
  end.
Proof.
  rewrite !compare_groups_eq, in_either_swap.
  destruct (_ <? 2)%nat; [exact I|].
  cbv zeta.
  destruct (ttest_ind_swap (group_scores label_a df_f) (group_scores label_b df_f))
    as [Ht Hp].
  rewrite Hp. repeat split; try reflexivity. exact Ht.
Qed.

(** C9: when the two groups together have two rows or more but one of
    the groups is empty, the guard lets the comparison through, the
    test returns NaN for the statistic and for the p-value, and the
    verdict is no significant difference, not the message about
    insufficient data. *)
Theorem one_empty_group_still_tested (df_f : DataFrame) :
  let n := List.length (List.filter (in_either "Chatbot" "Live Agent") df_f) in
  let chatbot := group_scores "Chatbot" df_f in
  let agent := group_scores "Live Agent" df_f in
  (2 <= n)%nat ->
  chatbot = [] \/ agent = [] ->
  ab_test t_sf df_f
  = Tested (List.length chatbot) (List.length agent)
           (Pd.mean chatbot) (Pd.mean agent)
           nan nan NoSignificantDifference.
Proof.
  intros n chatbot agent Hn Hempty. unfold ab_test.
  rewrite compare_groups_eq. fold n chatbot agent.
  apply Nat.ltb_ge in Hn. rewrite Hn. cbv zeta.
  assert (E : Sp.ttest_ind t_sf chatbot agent = (nan, nan)).
  { destruct Hempty as [-> | ->]; [reflexivity|]. now destruct chatbot. }
  rewrite E. reflexivity.
Qed.

End Comparison.

(** ** The script on the sample table *)

Lemma significance_verdict_witness :
  exists t_stat p_val v,
    ab_test sample_t_sf sample_df = Tested 2 2 4.5 1.5 t_stat p_val v /\
    (v = SignificantDifference <-> (p_val <? alpha) = true) /\
    (v = NoSignificantDifference <-> (p_val <? alpha) = false) /\
    (p_val = nan -> v = NoSignificantDifference) /\
    alpha = 0x1.999999999999ap-5.
Proof.
  do 3 eexists. split.
  - vm_compute. reflexivity.
  - eapply (significance_verdict sample_t_sf sample_df 2 2 4.5 1.5).
    vm_compute. reflexivity.
Defined.

Lemma one_empty_group_still_tested_witness :
  (2 <= List.length (List.filter (in_either "Chatbot" "Live Agent") chatbot_only))%nat /\
  group_scores "Live Agent" chatbot_only = [] /\
  ab_test sample_t_sf chatbot_only
  = Tested 2 0 4.5 nan nan nan NoSignificantDifference.
Proof.
  split; [vm_compute; lia|]. split; [reflexivity|].
  apply (one_empty_group_still_tested sample_t_sf chatbot_only).
  - vm_compute. lia.
  - right. reflexivity.
Defined.

(** One row in the two groups is not enough; one row in each is. *)
Example guard_boundary :
  ab_test sample_t_sf (firstn 1 sample_df) = NotEnoughData /\
  ab_test sample_t_sf (firstn 2 sample_df)
  = Tested 1 1 5 1 nan nan NoSignificantDifference.
Proof.
  split; vm_compute; reflexivity.
Qed.

(** Exchanging the labels on the sample table. *)
Example swap_sample :
  exists t_stat p_val,
    ab_test sample_t_sf sample_df
    = Tested 2 2 4.5 1.5 t_stat p_val NoSignificantDifference /\
    compare_groups sample_t_sf sample_df "Live Agent" "Chatbot"
    = Tested 2 2 1.5 4.5 (- t_stat) p_val NoSignificantDifference /\
    (0 <? t_stat) = true.
Proof.
  do 2 eexists. repeat split; vm_compute; reflexivity.
Qed.

(** Threshold 180 over resolution times 100, 200, 181, 180 and one
    missing value: two rows, 200 and 181. *)
Example scan_sample :
  fst (scan_threshold sample_df 180) = 2%nat /\
  map Resolution_Time_Minutes (anomalies sample_df 180) = [200; 181].
Proof.
  split; vm_compute; reflexivity.
Qed.

(** Twenty-five rows above the threshold: the count is 25, the table
    shows 20. *)
Example scan_more_than_twenty (r : Ticket) :
  above 180 r = true ->
  scan_threshold (repeat r 25) 180 = (25%nat, Table (repeat (project r) 20)).
Proof.
  intros H. unfold scan_threshold. rewrite anomalies_filter.
  assert (E : forall n, List.filter (above 180) (repeat r n) = repeat r n).
  { induction n as [|n IH]; simpl; [reflexivity|]. now rewrite H, IH. }
  rewrite E. reflexivity.
Qed.

(** A date range of one day keeps the rows of that day. *)
Example filter_one_day :
  map Ticket_ID
      (apply_filters sample_df ["Chatbot"; "Live Agent"; "Email"]
                     ["Billing"; "Refund"] (19723, 19723)%Z)
  = ["T1"; "T2"].
Proof.
  vm_compute. reflexivity.
Qed.

(** The KPIs of the sample table. *)
Example metrics_sample :
  compute_metrics sample_df = mkMetrics 3 165.25 1.5 40.
Proof.
  vm_compute. reflexivity.
Qed.

(** * Further properties of the script *)

(** ** Filtering *)

Lemma filter_none {A : Type} (p : A -> bool) (l : list A) :
  (forall x, In x l -> p x = false) -> List.filter p l = [].
Proof.
  induction l as [|x l IH]; simpl; intros H; [reflexivity|].
  rewrite (H x) by auto. apply IH. auto.
Qed.

Lemma filter_all {A : Type} (p : A -> bool) (l : list A) :
  (forall x, In x l -> p x = true) -> List.filter p l = l.
Proof.
  induction l as [|x l IH]; simpl; intros H; [reflexivity|].
  rewrite (H x) by auto. f_equal. apply IH. auto.
Qed.

Lemma filter_implied {A : Type} (p q : A -> bool) (l : list A) :
  (forall x, p x = true -> q x = true) ->
  List.filter p (List.filter q l) = List.filter p l.
Proof.
  intros H. rewrite filter_filter. apply filter_ext. intros x.
  destruct (p x) eqn:E.
  - now rewrite (H x E).
  - apply andb_false_r.
Qed.

(** X3: an empty selection of channels, an empty selection of issue
    types, or a date range whose end is before its start leaves no row. *)
Theorem empty_selection_empty_table (df : DataFrame)
  (channel_filter issue_filter : list string) (date_range : date * date) :
  apply_filters df [] issue_filter date_range = [] /\
  apply_filters df channel_filter [] date_range = [] /\
  ((snd date_range < fst date_range)%Z ->
   apply_filters df channel_filter issue_filter date_range = []).
Proof.
  rewrite !apply_filters_filter. repeat split.
  - apply filter_none. intros r _. unfold row_passes.
    now destruct (Channel r).
  - apply filter_none. intros r _. unfold row_passes.
    destruct (Issue_Type r); simpl; now rewrite ?andb_false_r.
  - intros H. apply filter_none. intros r _. unfold row_passes.
    destruct (Created_At r) as [ts|]; simpl; [|apply andb_false_r].
    destruct (Z.leb_spec (fst date_range) (date_of ts)),
             (Z.leb_spec (date_of ts) (snd date_range));
      rewrite ?andb_false_r; try reflexivity; lia.
Qed.

(** X4: two filters applied one after the other keep the rows that pass
    both, so the order in which they are applied does not matter. *)
Theorem filters_commute (df : DataFrame)
  (c1 i1 : list string) (r1 : date * date)
  (c2 i2 : list string) (r2 : date * date) :
  apply_filters (apply_filters df c1 i1 r1) c2 i2 r2
  = List.filter (fun r => row_passes c1 i1 r1 r && row_passes c2 i2 r2 r) df /\
  apply_filters (apply_filters df c1 i1 r1) c2 i2 r2
  = apply_filters (apply_filters df c2 i2 r2) c1 i1 r1.
Proof.
  rewrite !apply_filters_filter, !filter_filter. split; [reflexivity|].
  apply filter_ext. intros r. apply andb_comm.
Qed.

(** X5: narrowing a filtered table gives what the narrower filter gives
    on the whole dataset: when the second selection allows no more
    channels, no more issue types and no more days than the first. *)
Theorem filter_narrowing (df : DataFrame)
  (c1 i1 : list string) (r1 : date * date)
  (c2 i2 : list string) (r2 : date * date) :
  incl c2 c1 -> incl i2 i1 ->
  (fst r1 <= fst r2)%Z -> (snd r2 <= snd r1)%Z ->
  apply_filters (apply_filters df c1 i1 r1) c2 i2 r2
  = apply_filters df c2 i2 r2.
Proof.
  intros Hc Hi Hlo Hhi. rewrite !apply_filters_filter.
  apply filter_implied. intros r.
  destruct r1 as [lo1 hi1], r2 as [lo2 hi2]. simpl in Hlo, Hhi.
  rewrite !row_passes_spec.
  intros ((c & Ec & Inc) & (i & Ei & Ini) & (ts & Ets & Hts)).
  repeat split.
  - exists c. auto.
  - exists i. auto.
  - exists ts. split; [assumption | lia].
Qed.

Lemma filter_narrowing_witness :
  apply_filters
    (apply_filters sample_df ["Chatbot"; "Live Agent"] ["Billing"; "Refund"]
                   (19723, 19724)%Z)
    ["Chatbot"] ["Billing"] (19723, 19723)%Z
  = apply_filters sample_df ["Chatbot"] ["Billing"] (19723, 19723)%Z.
Proof.
  apply filter_narrowing.
  - intros x [<- | []]. simpl. auto.
  - intros x [<- | []]. simpl. auto.
  - simpl. lia.
  - simpl. lia.
Defined.

(** ** The sidebar *)

Lemma insert_sorted_In (s x : string) (l : list string) :
  In x (insert_sorted s l) <-> x = s \/ In x l.
Proof.
  induction l as [|y l IH]; simpl.
  - intuition.
  - destruct (String.leb s y); simpl; rewrite ?IH; intuition.
Qed.

Lemma sorted_In (x : string) (l : list string) : In x (sorted l) <-> In x l.
Proof.
  induction l as [|y l IH]; simpl; [reflexivity|].
  rewrite insert_sorted_In, IH. intuition.
Qed.

Lemma insert_sorted_Sorted (s : string) (l : list string) :
  Sorted str_le l -> Sorted str_le (insert_sorted s l).
Proof.
  induction 1 as [|y l Hs IH Hd]; simpl.
  - repeat constructor.
  - destruct (String.leb s y) eqn:E.
    + repeat constructor; assumption.
    + assert (Hys : str_le y s).
      { destruct (String.leb_total s y) as [H|H]; [congruence | exact H]. }
      constructor; [exact IH|].
      destruct Hd as [|z l Hyz]; simpl.
      * now constructor.
      * destruct (String.leb s z); now constructor.
Qed.

Lemma sorted_Sorted (l : list string) : Sorted str_le (sorted l).
Proof.
  induction l as [|y l IH]; simpl; [constructor|].
  now apply insert_sorted_Sorted.
Qed.

Lemma insert_sorted_NoDup (s : string) (l : list string) :
  ~ In s l -> NoDup l -> NoDup (insert_sorted s l).
Proof.
  induction l as [|y l IH]; simpl; intros Hs Hl.
  - repeat constructor. auto.
  - inversion Hl as [|? ? Hy Hl']; subst.
    destruct (String.leb s y).
    + constructor; [simpl; intuition | assumption].
    + constructor.
      * rewrite insert_sorted_In. intuition.
      * apply IH; intuition.
Qed.

Lemma sorted_NoDup (l : list string) : NoDup l -> NoDup (sorted l).
Proof.
  induction 1 as [|y l Hy Hl IH]; simpl; [constructor|].
  apply insert_sorted_NoDup; [|exact IH]. now rewrite sorted_In.
Qed.

Lemma unique_In (x : string) (col : list string) :
  In x (Pd.unique col) <-> In x col.
Proof.
  induction col as [|y col IH]; simpl; [reflexivity|].
  rewrite filter_In, IH, negb_true_iff, String.eqb_neq.
  destruct (string_dec y x); intuition.
Qed.

Lemma unique_NoDup (col : list string) : NoDup (Pd.unique col).
Proof.
  induction col as [|y col IH]; simpl; constructor.
  - rewrite filter_In, negb_true_iff, String.eqb_neq. intuition.
  - now apply NoDup_filter.
Qed.

Lemma dropna_labels_In (s : string) (col : list (option string)) :
  In s (Pd.dropna_labels col) <-> In (Some s) col.
Proof.
  induction col as [|[y|] col IH]; simpl.
  - reflexivity.
  - rewrite IH. split; intros [H|H]; auto; left; congruence.
  - rewrite IH. split; [auto | intros [H|H]; [discriminate | exact H]].
Qed.

Lemma options_spec (f : Ticket -> option string) (df : DataFrame) :
  let options := sorted (Pd.unique (Pd.dropna_labels (map f df))) in
  (forall c, In c options <-> exists r, In r df /\ f r = Some c) /\
  NoDup options /\ Sorted str_le options.
Proof.
  intros options. split; [|split].
  - intros c. unfold options.
    rewrite sorted_In, unique_In, dropna_labels_In, in_map_iff.
    split; intros (r & H1 & H2); exists r; auto.
  - apply sorted_NoDup, unique_NoDup.
  - apply sorted_Sorted.
Qed.

Lemma selector_options_aux (df : DataFrame) :
  (forall c, In c (channel_options df)
             <-> exists r, In r df /\ Channel r = Some c) /\
  (forall i, In i (issue_options df)
             <-> exists r, In r df /\ Issue_Type r = Some i).
Proof.
  split; [apply (options_spec Channel) | apply (options_spec Issue_Type)].
Qed.

(** X6: the options of the channel and of the issue-type selector are
    exactly the values that occur in the dataset, missing cells left
    out, each listed once, in ascending order. *)
Theorem selector_options (df : DataFrame) :
  ((forall c, In c (channel_options df)
              <-> exists r, In r df /\ Channel r = Some c) /\
   NoDup (channel_options df) /\ Sorted str_le (channel_options df)) /\
  ((forall i, In i (issue_options df)
              <-> exists r, In r df /\ Issue_Type r = Some i) /\
   NoDup (issue_options df) /\ Sorted str_le (issue_options df)).
Proof.
  split; [apply (options_spec Channel) | apply (options_spec Issue_Type)].
Qed.

Lemma date_of_mono (a b : timestamp) : (a <= b)%Z -> (date_of a <= date_of b)%Z.
Proof.
  intros H. unfold date_of, ns_per_day. apply Z.div_le_mono; lia.
Qed.

Lemma fold_min_spec (col : list (option timestamp)) (acc : option timestamp) :
  match fold_left Pd.min_cell col acc with
  | Some m =>
      (acc = Some m \/ In (Some m) col) /\
      (forall a, acc = Some a -> (m <= a)%Z) /\
      (forall x, In (Some x) col -> (m <= x)%Z)
  | None => acc = None /\ forall x, ~ In (Some x) col
  end.
Proof.
  revert acc. induction col as [|c col IH]; intros acc; simpl.
  - destruct acc as [a|].
    + split; [auto|]. split; [intros ? [= <-]; lia | intros ? []].
    + split; [reflexivity | intros ? []].
  - specialize (IH (Pd.min_cell acc c)).
    destruct (fold_left Pd.min_cell col (Pd.min_cell acc c)) as [m|].
    + destruct IH as (Hin & Hacc & Hcol).
      destruct c as [x|], acc as [a|]; simpl in *.
      * specialize (Hacc _ eq_refl). split; [|split].
        -- destruct Hin as [[= H]|H]; [|auto].
           destruct (Z.min_spec a x) as [[_ E]|[_ E]]; rewrite E in H; subst; auto.
        -- intros ? [= <-]. lia.
        -- intros y [[= <-]|H]; [lia | auto].
      * specialize (Hacc _ eq_refl). split; [|split].
        -- destruct Hin as [[= <-]|H]; auto.
        -- discriminate.
        -- intros y [[= <-]|H]; [lia | auto].
      * split; [|split].
        -- destruct Hin; auto.
        -- exact Hacc.
        -- intros y [H|H]; [discriminate | auto].
      * split; [|split].
        -- destruct Hin; auto.
        -- discriminate.
        -- intros y [H|H]; [discriminate | auto].
    + destruct IH as (Hacc & Hcol).
      destruct c as [x|], acc as [a|]; simpl in *; try discriminate.
      split; [reflexivity|]. intros y [H|H]; [discriminate | now apply (Hcol y)].
Qed.

Lemma fold_max_spec (col : list (option timestamp)) (acc : option timestamp) :
  match fold_left Pd.max_cell col acc with
  | Some m =>
      (acc = Some m \/ In (Some m) col) /\
      (forall a, acc = Some a -> (a <= m)%Z) /\
      (forall x, In (Some x) col -> (x <= m)%Z)
  | None => acc = None /\ forall x, ~ In (Some x) col
  end.
Proof.
  revert acc. induction col as [|c col IH]; intros acc; simpl.
  - destruct acc as [a|].
    + split; [auto|]. split; [intros ? [= <-]; lia | intros ? []].
    + split; [reflexivity | intros ? []].
  - specialize (IH (Pd.max_cell acc c)).
    destruct (fold_left Pd.max_cell col (Pd.max_cell acc c)) as [m|].
    + destruct IH as (Hin & Hacc & Hcol).
      destruct c as [x|], acc as [a|]; simpl in *.
      * specialize (Hacc _ eq_refl). split; [|split].
        -- destruct Hin as [[= H]|H]; [|auto].
           destruct (Z.max_spec a x) as [[_ E]|[_ E]]; rewrite E in H; subst; auto.
        -- intros ? [= <-]. lia.
        -- intros y [[= <-]|H]; [lia | auto].
      * specialize (Hacc _ eq_refl). split; [|split].
        -- destruct Hin as [[= <-]|H]; auto.
        -- discriminate.
        -- intros y [[= <-]|H]; [lia | auto].
      * split; [|split].
        -- destruct Hin; auto.
        -- exact Hacc.
        -- intros y [H|H]; [discriminate | auto].
      * split; [|split].
        -- destruct Hin; auto.
        -- discriminate.
        -- intros y [H|H]; [discriminate | auto].
    + destruct IH as (Hacc & Hcol).
      destruct c as [x|], acc as [a|]; simpl in *; try discriminate.
      split; [reflexivity|]. intros y [H|H]; [discriminate | now apply (Hcol y)].
Qed.

Lemma created_at_In (df : DataFrame) (ts : timestamp) :
  In (Some ts) (map Created_At df) <-> exists r, In r df /\ Created_At r = Some ts.
Proof.
  rewrite in_map_iff. split; intros (r & H1 & H2); exists r; auto.
Qed.

Lemma dates_within_bounds (df : DataFrame) (lo hi : date) :
  min_date df = Some lo -> max_date df = Some hi ->
  forall r ts, In r df -> Created_At r = Some ts ->
               (lo <= date_of ts <= hi)%Z.
Proof.
  unfold min_date, max_date, Pd.series_min, Pd.series_max.
  intros Hlo Hhi r ts Hr Hts.
  assert (Hin : In (Some ts) (map Created_At df)) by (apply created_at_In; eauto).
  pose proof (fold_min_spec (map Created_At df) None) as Hmin.
  pose proof (fold_max_spec (map Created_At df) None) as Hmax.
  destruct (fold_left Pd.min_cell _ None) as [a|]; [|discriminate].
  destruct (fold_left Pd.max_cell _ None) as [b|]; [|discriminate].
  injection Hlo as <-. injection Hhi as <-.
  destruct Hmin as (_ & _ & Hmin). destruct Hmax as (_ & _ & Hmax).
  split; apply date_of_mono; auto.
Qed.

(** X7: when some row has a timestamp, the bounds of the date input
    exist, each is the date of some row, the lower one is not after the
    upper one, and the date of every row that has a timestamp lies
    between them; when no row has a timestamp, both bounds are NaT. *)
Theorem date_bounds (df : DataFrame) :
  match min_date df, max_date df with
  | Some lo, Some hi =>
      (lo <= hi)%Z /\
      (forall r ts, In r df -> Created_At r = Some ts ->
                    (lo <= date_of ts <= hi)%Z) /\
      (exists r ts, In r df /\ Created_At r = Some ts /\ date_of ts = lo) /\
      (exists r ts, In r df /\ Created_At r = Some ts /\ date_of ts = hi)
  | None, None => forall r, In r df -> Created_At r = None
  | _, _ => False
  end.
Proof.
  unfold min_date, max_date, Pd.series_min, Pd.series_max.
  pose proof (fold_min_spec (map Created_At df) None) as Hmin.
  pose proof (fold_max_spec (map Created_At df) None) as Hmax.
  destruct (fold_left Pd.min_cell _ None) as [lo|],
           (fold_left Pd.max_cell _ None) as [hi|]; simpl.
  - destruct Hmin as ([Hl|Hl] & _ & Hlo); [discriminate|].
    destruct Hmax as ([Hh|Hh] & _ & Hhi); [discriminate|].
    split; [apply date_of_mono, Hhi, Hl|]. split; [|split].
    + intros r ts Hr Hts.
      assert (In (Some ts) (map Created_At df)) by (apply created_at_In; eauto).
      split; apply date_of_mono; auto.
    + apply created_at_In in Hl. destruct Hl as (r & Hr & Hts). eauto.
    + apply created_at_In in Hh. destruct Hh as (r & Hr & Hts). eauto.
  - destruct Hmin as ([Hl|Hl] & _); [discriminate|].
    destruct Hmax as (_ & Hnone). now apply Hnone in Hl.
  - destruct Hmax as ([Hh|Hh] & _); [discriminate|].
    destruct Hmin as (_ & Hnone). now apply Hnone in Hh.
  - destruct Hmin as (_ & Hnone). intros r Hr.
    destruct (Created_At r) as [ts|] eqn:E; [|reflexivity].
    exfalso. apply (Hnone ts). apply created_at_In. eauto.
Qed.

(** X8: with the default selections (every option of both selectors,
    the whole span of dates) the filtered table holds the rows whose
    channel, issue type and timestamp are all present, and only those;
    a dataset without missing cells in these columns is kept whole. *)
Theorem default_filters_keep_complete_rows (df : DataFrame) (date_range : date * date) :
  default_date_range df = Some date_range ->
  apply_filters df (channel_options df) (issue_options df) date_range
  = List.filter complete df /\
  ((forall r, In r df -> complete r = true) ->
   apply_filters df (channel_options df) (issue_options df) date_range = df).
Proof.
  intros Hdef.
  assert (E : apply_filters df (channel_options df) (issue_options df) date_range
              = List.filter complete df).
  { rewrite apply_filters_filter. apply filter_ext_in. intros r Hr.
    unfold default_date_range in Hdef.
    destruct (min_date df) as [lo|] eqn:Elo; [|discriminate].
    destruct (max_date df) as [hi|] eqn:Ehi; [|discriminate].
    injection Hdef as <-.
    pose proof (dates_within_bounds df lo hi Elo Ehi) as Hb.
    destruct (selector_options_aux df) as (Hc & Hi).
    unfold row_passes, complete. simpl.
    destruct (Channel r) as [c|] eqn:Ec; simpl; [|reflexivity].
    assert (Hc' : existsb (String.eqb c) (channel_options df) = true).
    { apply existsb_exists. exists c. split; [apply Hc; eauto | apply String.eqb_refl]. }
    rewrite Hc'. simpl.
    destruct (Issue_Type r) as [i|] eqn:Ei; simpl; [|reflexivity].
    assert (Hi' : existsb (String.eqb i) (issue_options df) = true).
    { apply existsb_exists. exists i. split; [apply Hi; eauto | apply String.eqb_refl]. }
    rewrite Hi'. simpl.
    destruct (Created_At r) as [ts|] eqn:Et; simpl; [|reflexivity].
    destruct (Hb r ts Hr Et) as [H1 H2].
    apply Z.leb_le in H1, H2. now rewrite H1, H2. }
  split; [exact E|].
  intros Hall. rewrite E. now apply filter_all.
Qed.

Lemma default_filters_keep_complete_rows_witness :
  apply_filters sample_df (channel_options sample_df) (issue_options sample_df)
                (19723, 19724)%Z
  = List.filter complete sample_df /\
  ((forall r, In r sample_df -> complete r = true) ->
   apply_filters sample_df (channel_options sample_df) (issue_options sample_df)
                 (19723, 19724)%Z = sample_df).
Proof.
  apply (default_filters_keep_complete_rows sample_df). reflexivity.
Defined.

(** ** The daily trend *)

Lemma bump_sum (k : date) (acc : list (date * nat)) :
  list_sum (map snd (Pd.bump k acc)) = S (list_sum (map snd acc)).
Proof.
  induction acc as [|[k' n] acc IH]; simpl; [reflexivity|].
  destruct (k <? k')%Z; [reflexivity|].
  destruct (k =? k')%Z; simpl; [reflexivity|]. rewrite IH. lia.
Qed.

Lemma bump_count_at (d k : date) (acc : list (date * nat)) :
  count_at d (Pd.bump k acc)
  = (count_at d acc + if (k =? d)%Z then 1 else 0)%nat.
Proof.
  unfold count_at. induction acc as [|[k' n] acc IH]; simpl.
  - destruct (k =? d)%Z; reflexivity.
  - destruct (Z.ltb_spec k k'); simpl.
    + destruct (k =? d)%Z, (k' =? d)%Z; simpl; lia.
    + destruct (Z.eqb_spec k k'); simpl.
      * subst k'. destruct (k =? d)%Z; simpl; lia.
      * destruct (k' =? d)%Z; simpl; rewrite IH; lia.
Qed.

Lemma bump_positive (k : date) (acc : list (date * nat)) :
  Forall (fun kn => (1 <= snd kn)%nat) acc ->
  Forall (fun kn => (1 <= snd kn)%nat) (Pd.bump k acc).
Proof.
  induction 1 as [|[k' n] acc Hn Hacc IH]; simpl.
  - repeat constructor.
  - destruct (k <? k')%Z; [repeat constructor; auto|].
    destruct (k =? k')%Z; constructor; simpl in *; auto; lia.
Qed.

Lemma bump_sorted (k : date) (acc : list (date * nat)) :
  Sorted Z.lt (map fst acc) -> Sorted Z.lt (map fst (Pd.bump k acc)).
Proof.
  induction acc as [|[k' n] acc IH]; simpl; intros Hs.
  - repeat constructor.
  - inversion Hs as [|? ? Hs' Hd]; subst.
    destruct (Z.ltb_spec k k'); simpl.
    + repeat constructor; assumption.
    + destruct (Z.eqb_spec k k'); simpl.
      * constructor; assumption.
      * constructor; [now apply IH|].
        destruct acc as [|[k'' n''] acc]; simpl in *.
        -- constructor. lia.
        -- inversion Hd; subst.
           destruct (k <? k'')%Z; simpl; [constructor; lia|].
           destruct (k =? k'')%Z; simpl; now constructor.
Qed.

Lemma count_at_absent (d : date) (acc : list (date * nat)) :
  Forall (fun k => (d < k)%Z) (map fst acc) -> count_at d acc = 0%nat.
Proof.
  unfold count_at. induction acc as [|[k n] acc IH]; simpl; intros H.
  - reflexivity.
  - inversion H; subst. destruct (Z.eqb_spec k d); [lia | auto].
Qed.

(** In a table sorted by day, the entry of a day holds its count. *)
Lemma count_at_In (d : date) (n : nat) (acc : list (date * nat)) :
  Sorted Z.lt (map fst acc) ->
  Forall (fun kn => (1 <= snd kn)%nat) acc ->
  (In (d, n) acc <-> count_at d acc = n /\ (1 <= n)%nat).
Proof.
  intros Hs Hp. apply Sorted_StronglySorted in Hs; [|exact Z.lt_trans].
  induction acc as [|[k m] acc IH]; simpl in *.
  - unfold count_at. simpl. split; [intros [] | lia].
  - inversion Hs as [|? ? Hs' Hall]; subst.
    inversion Hp as [|? ? Hm Hp']; subst. simpl in Hm.
    specialize (IH Hs' Hp').
    unfold count_at in *. simpl.
    destruct (Z.eqb_spec k d) as [->|Hne]; simpl.
    + rewrite (count_at_absent d acc Hall : list_sum _ = 0%nat).
      split.
      * intros [[= <-]|Hin]; [lia|].
        apply IH in Hin. fold (count_at d acc) in Hin.
        rewrite (count_at_absent d acc Hall) in Hin. lia.
      * intros [E _]. left. f_equal. lia.
    + rewrite <- IH. split; [intros [[= ? ?]|H]; [contradiction | exact H] | auto].
Qed.

Lemma daily_counts_fold (df : DataFrame) (acc : list (date * nat)) :
  let counts := fold_left count_key (Pd.dt_date (map Created_At df)) acc in
  (Sorted Z.lt (map fst acc) -> Sorted Z.lt (map fst counts)) /\
  (Forall (fun kn => (1 <= snd kn)%nat) acc ->
   Forall (fun kn => (1 <= snd kn)%nat) counts) /\
  (forall d, count_at d counts
             = (count_at d acc + List.length (List.filter (created_on d) df))%nat) /\
  list_sum (map snd counts)
  = (list_sum (map snd acc) + List.length (List.filter has_timestamp df))%nat.
Proof.
  revert acc. induction df as [|r df IH]; intros acc; simpl.
  - repeat split; auto; intros; lia.
  - destruct (IH (count_key acc (option_map date_of (Created_At r))))
      as (Hs & Hp & Hc & Hsum).
    destruct (Created_At r) as [ts|] eqn:E; simpl in *.
    + assert (Hon : forall d, created_on d r = (date_of ts =? d)%Z).
      { intros d. unfold created_on. now rewrite E. }
      assert (Hts : has_timestamp r = true).
      { unfold has_timestamp. now rewrite E. }
      rewrite Hts. split; [|split; [|split]].
      * intros H. now apply Hs, bump_sorted.
      * intros H. now apply Hp, bump_positive.
      * intros d. rewrite Hc, bump_count_at, Hon.
        destruct (date_of ts =? d)%Z; simpl; lia.
      * rewrite Hsum, bump_sum. simpl. lia.
    + assert (Hon : forall d, created_on d r = false).
      { intros d. unfold created_on. now rewrite E. }
      assert (Hts : has_timestamp r = false).
      { unfold has_timestamp. now rewrite E. }
      rewrite Hts. repeat split; auto. intros d. now rewrite Hon.
Qed.

(** X9: the table of tickets per day lists the days in increasing
    order, each once; a day is listed with count [n] exactly when [n]
    rows were created on it and [n] is not zero; the counts add up to
    the number of rows that have a timestamp. *)
Theorem daily_counts_spec (df_f : DataFrame) :
  Sorted Z.lt (map fst (daily_counts df_f)) /\
  (forall d n, In (d, n) (daily_counts df_f)
               <-> n = List.length (List.filter (created_on d) df_f)
                   /\ (1 <= n)%nat) /\
  list_sum (map snd (daily_counts df_f))
  = List.length (List.filter has_timestamp df_f).
Proof.
  destruct (daily_counts_fold df_f []) as (Hs & Hp & Hc & Hsum).
  change (fold_left count_key (Pd.dt_date (map Created_At df_f)) [])
    with (daily_counts df_f) in *.
  specialize (Hs (Sorted_nil _)). specialize (Hp (Forall_nil _)).
  split; [exact Hs|]. split; [|exact Hsum].
  intros d n. rewrite (count_at_In d n _ Hs Hp), Hc.
  unfold count_at. simpl. intuition.
Qed.

Lemma filter_nonempty_In {A : Type} (p : A -> bool) (l : list A) :
  (1 <= List.length (List.filter p l))%nat -> exists x, In x l /\ p x = true.
Proof.
  destruct (List.filter p l) as [|x l'] eqn:E; simpl; [lia|]. intros _.
  assert (H : In x (List.filter p l)) by (rewrite E; now left).
  apply filter_In in H. eauto.
Qed.

(** X10: in the daily trend of a filtered table every filtered row is
    counted, so the counts add up to the number of filtered tickets, and
    every day listed lies within the selected date range. *)
Theorem daily_counts_of_filtered (df : DataFrame)
  (channel_filter issue_filter : list string) (date_start date_end : date) :
  let df_f := apply_filters df channel_filter issue_filter (date_start, date_end) in
  list_sum (map snd (daily_counts df_f)) = List.length df_f /\
  (forall d n, In (d, n) (daily_counts df_f) ->
               (date_start <= d <= date_end)%Z /\ (1 <= n <= List.length df_f)%nat).
Proof.
  intros df_f.
  assert (Hrows : forall r, In r df_f ->
            exists ts, Created_At r = Some ts
                       /\ (date_start <= date_of ts <= date_end)%Z).
  { intros r Hr. unfold df_f in Hr. rewrite apply_filters_filter in Hr.
    apply filter_In in Hr. destruct Hr as [_ Hr].
    apply row_passes_spec in Hr. apply Hr. }
  destruct (daily_counts_fold df_f []) as (Hs & Hp & Hc & Hsum).
  change (fold_left count_key (Pd.dt_date (map Created_At df_f)) [])
    with (daily_counts df_f) in *.
  specialize (Hs (Sorted_nil _)). specialize (Hp (Forall_nil _)).
  split.
  - rewrite Hsum. simpl. f_equal. apply filter_all.
    intros r Hr. destruct (Hrows r Hr) as (ts & Hts & _).
    unfold has_timestamp. now rewrite Hts.
  - intros d n Hin. apply (count_at_In d n _ Hs Hp) in Hin.
    destruct Hin as [Hn Hpos]. rewrite Hc in Hn.
    unfold count_at in Hn. simpl in Hn.
    split.
    + destruct (filter_nonempty_In (created_on d) df_f) as (r & Hr & Hon); [lia|].
      destruct (Hrows r Hr) as (ts & Hts & Hrange).
      unfold created_on in Hon. rewrite Hts in Hon.
      apply Z.eqb_eq in Hon. lia.
    + pose proof (filter_length_le (created_on d) df_f). lia.
Qed.

(** ** The order of the floats *)

Lemma SFcompare_key (a b : spec_float) :
  SFcompare a b
  = match sf_key a, sf_key b with
    | Some ka, Some kb => Some (lex3 ka kb)
    | _, _ => None
    end.
Proof.
  destruct a as [sa|sa| |sa ma ea], b as [sb|sb| |sb mb eb];
    try reflexivity;
    try (destruct sa; reflexivity); try (destruct sb; reflexivity);
    try (destruct sa, sb; reflexivity).
  destruct sa, sb; try reflexivity; unfold lex3; simpl.
  rewrite Z.compare_opp, (Z.compare_antisym ea eb).
  destruct (ea ?= eb)%Z; reflexivity.
Qed.

Lemma lex3_lt (a b : Z * Z * Z) :
  lex3 a b = Lt <->
  (fst (fst a) < fst (fst b)
   \/ fst (fst a) = fst (fst b)
      /\ (snd (fst a) < snd (fst b)
          \/ snd (fst a) = snd (fst b) /\ snd a < snd b))%Z.
Proof.
  unfold lex3.
  destruct (Z.compare_spec (fst (fst a)) (fst (fst b)));
    destruct (Z.compare_spec (snd (fst a)) (snd (fst b)));
    destruct (Z.compare_spec (snd a) (snd b));
    split; intros; try discriminate; try reflexivity; lia.
Qed.

Lemma lex3_eq (a b : Z * Z * Z) :
  lex3 a b = Eq <->
  (fst (fst a) = fst (fst b) /\ snd (fst a) = snd (fst b) /\ snd a = snd b)%Z.
Proof.
  unfold lex3.
  destruct (Z.compare_spec (fst (fst a)) (fst (fst b)));
    destruct (Z.compare_spec (snd (fst a)) (snd (fst b)));
    destruct (Z.compare_spec (snd a) (snd b));
    split; intros; try discriminate; try reflexivity; lia.
Qed.

(** [x <= y] and [y < z] give [x < z]. *)
Lemma leb_ltb_trans (x y z : float) :
  (x <=? y) = true -> (y <? z) = true -> (x <? z) = true.
Proof.
  rewrite leb_spec, !ltb_spec. unfold SFleb, SFltb.
  rewrite !SFcompare_key.
  destruct (sf_key (Prim2SF x)) as [kx|], (sf_key (Prim2SF y)) as [ky|],
           (sf_key (Prim2SF z)) as [kz|]; try discriminate.
  intros Hxy Hyz.
  assert (Hyz' : lex3 ky kz = Lt) by (destruct (lex3 ky kz); congruence).
  assert (Hxy' : lex3 kx ky = Lt \/ lex3 kx ky = Eq)
    by (destruct (lex3 kx ky); auto; discriminate).
  assert (H : lex3 kx kz = Lt).
  { apply lex3_lt. apply lex3_lt in Hyz'.
    destruct Hxy' as [Hxy'|Hxy']; [apply lex3_lt in Hxy' | apply lex3_eq in Hxy'];
      lia. }
  now rewrite H.
Qed.

(** ** The resolution-time scan, further *)

(** X11: raising the threshold never flags a ticket that was not
    flagged before: the anomalies at the higher threshold are those of
    the lower threshold that are also above the higher one, in the same
    order, and the count does not grow. *)
Theorem anomalies_shrink_with_threshold (df_f : DataFrame) (t1 t2 : float) :
  (t1 <=? t2) = true ->
  anomalies df_f t2 = List.filter (above t2) (anomalies df_f t1) /\
  (forall r, In r (anomalies df_f t2) -> In r (anomalies df_f t1)) /\
  (fst (scan_threshold df_f t2) <= fst (scan_threshold df_f t1))%nat.
Proof.
  intros Hle.
  assert (Himp : forall r, above t2 r = true -> above t1 r = true).
  { intros r. unfold above. now apply leb_ltb_trans. }
  assert (E : anomalies df_f t2 = List.filter (above t2) (anomalies df_f t1)).
  { rewrite !anomalies_filter. symmetry. now apply filter_implied. }
  split; [exact E|]. split.
  - intros r. rewrite E, filter_In. tauto.
  - unfold scan_threshold. cbv [fst]. rewrite E. apply filter_length_le.
Qed.

Lemma anomalies_shrink_with_threshold_witness :
  anomalies sample_df 190 = List.filter (above 190) (anomalies sample_df 180) /\
  (forall r, In r (anomalies sample_df 190) -> In r (anomalies sample_df 180)) /\
  (fst (scan_threshold sample_df 190) <= fst (scan_threshold sample_df 180))%nat.
Proof.
  apply anomalies_shrink_with_threshold. reflexivity.
Defined.

(** X12: the message that no ticket is above the threshold is shown
    exactly when the count written is 0; a table that is shown is never
    empty and has the smaller of 20 and the count as its number of
    rows; the count never exceeds the number of filtered tickets. *)
Theorem scan_view_matches_count (df_f : DataFrame) (threshold : float) :
  let '(n, view) := scan_threshold df_f threshold in
  (view = NoTicketsAbove <-> n = 0%nat) /\
  (forall rows, view = Table rows ->
                (1 <= List.length rows)%nat
                /\ List.length rows = Nat.min 20 n) /\
  (n <= List.length df_f)%nat.
Proof.
  unfold scan_threshold. rewrite anomalies_filter.
  pose proof (filter_length_le (above threshold) df_f) as Hle.
  set (found := List.filter (above threshold) df_f) in *. clearbody found.
  assert (Hhead : List.length (Pd.head 20 (map project found))
                  = Nat.min 20 (List.length found)).
  { unfold Pd.head. now rewrite length_firstn, length_map. }
  set (shown := Pd.head 20 (map project found)) in *. clearbody shown.
  destruct found as [|r l]; simpl in *.
  - repeat split; try discriminate; lia.
  - split; [|split].
    + split; discriminate.
    + intros rows [= <-]. lia.
    + exact Hle.
Qed.

(** ** The comparison, further *)

Section ComparisonFurther.

Variable t_sf : float -> float -> float.

Lemma groups_disjoint (r : Ticket) :
  in_group "Chatbot" r && in_group "Live Agent" r = false.
Proof.
  unfold in_group. destruct (Channel r) as [s|]; simpl; [|reflexivity].
  destruct (String.eqb_spec s "Chatbot") as [->|]; reflexivity.
Qed.

Lemma filter_or_length {A : Type} (p q : A -> bool) (l : list A) :
  (forall x, p x && q x = false) ->
  List.length (List.filter (fun x => p x || q x) l)
  = (List.length (List.filter p l) + List.length (List.filter q l))%nat.
Proof.
  intros H. induction l as [|x l IH]; simpl; [reflexivity|].
  specialize (H x). destruct (p x), (q x); simpl in *; try discriminate; lia.
Qed.

(** X13: whenever the test is run, the two sizes reported are the
    numbers of Chatbot and of Live Agent rows of the filtered table;
    together they are the rows that passed the guard, at least 2 and at
    most the number of filtered tickets. *)
Theorem reported_group_sizes (df_f : DataFrame) (n_a n_b : nat)
  (mean_a mean_b t_stat p_val : float) (v : verdict) :
  ab_test t_sf df_f = Tested n_a n_b mean_a mean_b t_stat p_val v ->
  n_a = List.length (List.filter (in_group "Chatbot") df_f) /\
  n_b = List.length (List.filter (in_group "Live Agent") df_f) /\
  (n_a + n_b)%nat
  = List.length (List.filter (in_either "Chatbot" "Live Agent") df_f) /\
  (2 <= n_a + n_b <= List.length df_f)%nat.
Proof.
  unfold ab_test. rewrite compare_groups_eq.
  pose proof (filter_or_length (in_group "Chatbot") (in_group "Live Agent")
                df_f groups_disjoint) as Hsum.
  change (fun x => in_group "Chatbot" x || in_group "Live Agent" x)
    with (in_either "Chatbot" "Live Agent") in Hsum.
  pose proof (filter_length_le (in_either "Chatbot" "Live Agent") df_f) as Hle.
  destruct (Nat.ltb_spec (List.length (List.filter (in_either "Chatbot" "Live Agent") df_f)) 2);
    [discriminate|].
  intros [= <- <- _ _ _ _ _]. unfold group_scores. rewrite !length_map.
  split; [reflexivity|]. split; [reflexivity|].
  split; [symmetry; exact Hsum|].
  split; [exact (eq_ind _ (fun n => 2 <= n)%nat H _ Hsum)
         | exact (eq_ind _ (fun n => n <= List.length df_f)%nat Hle _ Hsum)].
Qed.

Lemma group_scores_of_groups (label : string) (df : DataFrame) :
  label = "Chatbot" \/ label = "Live Agent" ->
  group_scores label df
  = group_scores label (List.filter (in_either "Chatbot" "Live Agent") df).
Proof.
  intros Hl. unfold group_scores. f_equal. symmetry.
  apply filter_implied. intros r Hr. unfold in_either.
  destruct Hl as [-> | ->]; rewrite Hr; auto using orb_true_r.
Qed.

Lemma ab_test_on_groups (df : DataFrame) :
  ab_test t_sf df
  = ab_test t_sf (List.filter (in_either "Chatbot" "Live Agent") df).
Proof.
  unfold ab_test. rewrite !compare_groups_eq, filter_idem.
  rewrite <- !group_scores_of_groups by auto. reflexivity.
Qed.

(** X14: the comparison looks at the Chatbot and Live Agent rows only:
    two filtered tables with the same such rows, in the same order, give
    the same outcome, and the rows of other channels can be dropped. *)
Theorem ab_test_ignores_other_channels (df1 df2 : DataFrame) :
  List.filter (in_either "Chatbot" "Live Agent") df1
  = List.filter (in_either "Chatbot" "Live Agent") df2 ->
  ab_test t_sf df1 = ab_test t_sf df2
  /\ ab_test t_sf df1
     = ab_test t_sf (List.filter (in_either "Chatbot" "Live Agent") df1).
Proof.
  intros E. split; [|apply ab_test_on_groups].
  rewrite (ab_test_on_groups df1), (ab_test_on_groups df2), E. reflexivity.
Qed.

Lemma in_either_channel (r : Ticket) :
  in_either "Chatbot" "Live Agent" r = true <->
  Channel r = Some "Chatbot" \/ Channel r = Some "Live Agent".
Proof.
  unfold in_either, in_group. destruct (Channel r) as [s|]; simpl.
  - rewrite orb_true_iff, !String.eqb_eq.
    split; intros [H|H]; subst; auto; injection H; auto.
  - split; [discriminate | intros [H|H]; discriminate].
Qed.

(** X15: when the filtered table is not empty and neither Chatbot nor
    Live Agent is among the selected channels, the A/B tab reports that
    there is not enough data, whatever the dataset and the other
    filters.  The empty table is left out: on it the script does not
    get as far as this tab. *)
Theorem comparison_needs_a_selected_group (df : DataFrame)
  (channel_filter issue_filter : list string) (date_range : date * date) :
  ~ In "Chatbot" channel_filter ->
  ~ In "Live Agent" channel_filter ->
  apply_filters df channel_filter issue_filter date_range <> [] ->
  ab_test t_sf (apply_filters df channel_filter issue_filter date_range)
  = NotEnoughData.
Proof.
  intros Hc Hl _. rewrite ab_test_on_groups, apply_filters_filter.
  assert (E : List.filter (in_either "Chatbot" "Live Agent")
                (List.filter (row_passes channel_filter issue_filter date_range) df)
              = []).
  { apply filter_none. intros r Hr. apply filter_In in Hr. destruct Hr as [_ Hr].
    destruct (in_either "Chatbot" "Live Agent" r) eqn:Ein; [|reflexivity].
    exfalso. apply in_either_channel in Ein.
    unfold row_passes in Hr. rewrite !andb_true_iff in Hr.
    destruct Hr as [[[Hr _] _] _]. apply isin_cell_spec in Hr.
    destruct Hr as (c & Ec & Inc).
    destruct Ein as [E|E]; rewrite E in Ec; injection Ec as <-; auto. }
  rewrite E. reflexivity.
Qed.

(** X16: when both Chatbot and Live Agent are selected and some of
    their tickets pass the filters, the rows of the other selected
    channels do not change the outcome of the A/B tab: it is the
    outcome with these two channels alone selected. *)
Theorem comparison_ignores_other_selected_channels (df : DataFrame)
  (channel_filter issue_filter : list string) (date_range : date * date) :
  In "Chatbot" channel_filter ->
  In "Live Agent" channel_filter ->
  apply_filters df ["Chatbot"; "Live Agent"] issue_filter date_range <> [] ->
  ab_test t_sf (apply_filters df channel_filter issue_filter date_range)
  = ab_test t_sf (apply_filters df ["Chatbot"; "Live Agent"] issue_filter date_range).
Proof.
  intros Hc Hl _.
  rewrite (ab_test_on_groups (apply_filters df channel_filter _ _)).
  rewrite (ab_test_on_groups (apply_filters df ["Chatbot"; "Live Agent"] _ _)).
  f_equal. rewrite !apply_filters_filter, !filter_filter.
  apply filter_ext. intros r.
  destruct (in_either "Chatbot" "Live Agent" r) eqn:Ein;
    [|now rewrite !andb_false_r].
  rewrite !andb_true_r. unfold row_passes. do 3 f_equal.
  apply in_either_channel in Ein.
  assert (H1 : Pd.isin_cell channel_filter (Channel r) = true).
  { apply isin_cell_spec. destruct Ein as [E|E]; rewrite E; eauto. }
  assert (H2 : Pd.isin_cell ["Chatbot"; "Live Agent"] (Channel r) = true).
  { apply isin_cell_spec. destruct Ein as [E|E]; rewrite E;
      eexists; split; try reflexivity; simpl; auto. }
  congruence.
Qed.

End ComparisonFurther.

Lemma reported_group_sizes_witness :
  2%nat = List.length (List.filter (in_group "Chatbot") sample_df) /\
  2%nat = List.length (List.filter (in_group "Live Agent") sample_df) /\
  (2 + 2)%nat
  = List.length (List.filter (in_either "Chatbot" "Live Agent") sample_df) /\
  (2 <= 2 + 2 <= List.length sample_df)%nat.
Proof.
  eapply (reported_group_sizes sample_t_sf sample_df 2 2).
  vm_compute. reflexivity.
Defined.

Lemma ab_test_ignores_other_channels_witness :
  ab_test sample_t_sf sample_df = ab_test sample_t_sf (firstn 4 sample_df)
  /\ ab_test sample_t_sf sample_df
     = ab_test sample_t_sf
         (List.filter (in_either "Chatbot" "Live Agent") sample_df).
Proof.
  apply ab_test_ignores_other_channels. reflexivity.
Defined.

Lemma comparison_needs_a_selected_group_witness :
  map Ticket_ID
      (apply_filters sample_df_email ["Email"] ["Billing"; "Refund"]
                     (19723, 19724)%Z) = ["T6"] /\
  ab_test sample_t_sf
          (apply_filters sample_df_email ["Email"] ["Billing"; "Refund"]
                         (19723, 19724)%Z)
  = NotEnoughData.
Proof.
  split; [reflexivity|].
  apply comparison_needs_a_selected_group.
  - intros [H|[]]. discriminate.
  - intros [H|[]]. discriminate.
  - discriminate.
Defined.

Lemma comparison_ignores_other_selected_channels_witness :
  map Ticket_ID
      (apply_filters sample_df_email ["Chatbot"; "Email"; "Live Agent"]
                     ["Billing"; "Refund"] (19723, 19724)%Z)
  = ["T1"; "T2"; "T4"; "T6"] /\
  map Ticket_ID
      (apply_filters sample_df_email ["Chatbot"; "Live Agent"]
                     ["Billing"; "Refund"] (19723, 19724)%Z)
  = ["T1"; "T2"; "T4"] /\
  ab_test sample_t_sf
          (apply_filters sample_df_email ["Chatbot"; "Email"; "Live Agent"]
                         ["Billing"; "Refund"] (19723, 19724)%Z)
  = ab_test sample_t_sf
            (apply_filters sample_df_email ["Chatbot"; "Live Agent"]
                           ["Billing"; "Refund"] (19723, 19724)%Z).
Proof.
  split; [reflexivity|]. split; [reflexivity|].
  apply comparison_ignores_other_selected_channels.
  - simpl. auto.
  - simpl. auto.
  - discriminate.
Defined.

(** ** The KPI row, further *)

Lemma dropna_map {A : Type} (f : A -> float) (l : list A) :
  Pd.dropna (map f l) = map f (List.filter (fun r => negb (is_nan (f r))) l).
Proof.
  unfold Pd.dropna. induction l as [|r l IH]; simpl; [reflexivity|].
  destruct (negb (is_nan (f r))); simpl; now rewrite IH.
Qed.

Lemma mean_all_missing {A : Type} (f : A -> float) (l : list A) :
  (forall r, In r l -> f r = nan) -> Pd.mean (map f l) = nan.
Proof.
  intros H. unfold Pd.mean. rewrite dropna_map.
  rewrite (filter_none (fun r => negb (is_nan (f r))) l).
  - reflexivity.
  - intros r Hr. now rewrite (H r Hr).
Qed.

(** X17: a table, empty or not, in which the CSAT score of every row
    is missing shows NaN as average CSAT; likewise the average
    resolution time when every resolution time is missing, and the
    percentage of happy customers when every satisfaction flag is
    missing. *)
Theorem averages_of_missing_cells (df_f : DataFrame) :
  ((forall r, In r df_f -> CSAT_Score r = nan) ->
   avg_csat (compute_metrics df_f) = nan) /\
  ((forall r, In r df_f -> Resolution_Time_Minutes r = nan) ->
   avg_resolution (compute_metrics df_f) = nan) /\
  ((forall r, In r df_f -> CSAT_Binary r = nan) ->
   happy_rate (compute_metrics df_f) = nan).
Proof.
  simpl. split; [apply mean_all_missing|]. split; [apply mean_all_missing|].
  intros H. now rewrite (mean_all_missing CSAT_Binary df_f H).
Qed.

(** Two tickets without score, resolution time and satisfaction flag. *)
Example averages_of_missing_cells_sample :
  let blank (r : Ticket) :=
    mkRow (Ticket_ID r) (Created_At r) (Channel r) (Issue_Type r)
          (Response_Time_Minutes r) nan nan nan in
  compute_metrics (map blank (firstn 2 sample_df)) = mkMetrics nan nan 2 nan.
Proof.
  vm_compute. reflexivity.
Qed.
